(** * Shop API (lecture_2/hw/shop_api/main.py): items, carts and their views

    A shallow embedding of the request handlers of the in-memory shop
    service.  The two module-level dictionaries [items_map] and [cart_map]
    become the two fields of an explicit [store] that every handler takes
    and, when it mutates, returns.  A raised exception is the [Err] branch
    of [res]; every handler raises before it mutates, so a failed request
    leaves the store as it was.

    Numbers are the source's: an [int] is a [Z], a [float] is a primitive
    binary64 float.  A Python [dict] keeps insertion order and the handlers
    observe it through [values()], so a dictionary is an association list
    whose keys are kept distinct by [dict_set]. *)

From Stdlib Require Import ZArith List Bool String Lia.
From Stdlib Require Import DecimalString Uint63 PrimFloat.
Import ListNotations.

Local Open Scope string_scope.
Local Open Scope list_scope.
Local Open Scope Z_scope.

(** ** Results and exceptions *)

Inductive HTTPStatus : Type :=
| OK
| CREATED
| NOT_MODIFIED
| NOT_FOUND
| UNPROCESSABLE_ENTITY.

(** What a handler can raise: the [HTTPException] of the two [assert_*]
    helpers and of [get_item]; the validation error FastAPI answers with
    when a [Query] constraint fails; and the two errors Python itself
    raises on [None.name] and on [d[k]] for a missing key. *)
Inductive exn : Type :=
| HTTPException (status_code : HTTPStatus) (detail : string)
| RequestValidationError
| AttributeError
| KeyError.

Inductive res (A : Type) : Type :=
| Ok (a : A)
| Err (e : exn).

Arguments Ok {A} a.
Arguments Err {A} e.

Definition bind {A B : Type} (m : res A) (k : A -> res B) : res B :=
  match m with
  | Ok a => k a
  | Err e => Err e
  end.

Notation "x <- m ;; k" := (bind m (fun x => k))
  (at level 61, m at next level, right associativity).
Notation "m ;;; k" := (bind m (fun _ => k))
  (at level 61, right associativity).

(** [[f(x) for x in xs]] where [f] may raise: the first failure wins. *)
Fixpoint mapM {A B : Type} (f : A -> res B) (xs : list A) : res (list B) :=
  match xs with
  | [] => Ok []
  | x :: xs' => y <- f x ;; ys <- mapM f xs' ;; Ok (y :: ys)
  end.

(** ** Python values *)

(** [f"{n}"] for an [int]. *)
Definition str (n : Z) : string := NilEmpty.string_of_int (Z.to_int n).

(** The conversion [int * float] applies to its left operand.  The only
    ints multiplied are line quantities, which count list elements. *)
Definition float_of_int (n : Z) : float := PrimFloat.of_uint63 (Uint63.of_Z n).

(** [sum(xs)] over floats: accumulation from [0], left to right. *)
Definition fsum (xs : list float) : float := fold_left PrimFloat.add xs PrimFloat.zero.

(** [sum(xs)] over ints. *)
Definition isum (xs : list Z) : Z := fold_left Z.add xs 0.

(** ** Insertion-ordered dictionaries keyed by [int] *)

Section Dict.
Context {V : Type}.

Definition dict : Type := list (Z * V).

Fixpoint dict_get (k : Z) (d : dict) : option V :=
  match d with
  | [] => None
  | (k', v) :: d' => if k' =? k then Some v else dict_get k d'
  end.

(** [k in d] *)
Definition dict_mem (k : Z) (d : dict) : bool :=
  match dict_get k d with
  | Some _ => true
  | None => false
  end.

(** [d[k] = v]: an existing key keeps its position, a new one goes last. *)
Fixpoint dict_set (k : Z) (v : V) (d : dict) : dict :=
  match d with
  | [] => [(k, v)]
  | (k', v') :: d' =>
      if k' =? k then (k, v) :: d' else (k', v') :: dict_set k v d'
  end.

Definition dict_keys (d : dict) : list Z := map fst d.
Definition dict_values (d : dict) : list V := map snd d.
Definition dict_len (d : dict) : Z := Z.of_nat (List.length d).

(** [d[k]] as an expression. *)
Definition dict_item (k : Z) (d : dict) : res V :=
  match dict_get k d with
  | Some v => Ok v
  | None => Err KeyError
  end.
End Dict.

Arguments dict V : clear implicits.

(** [data[start:stop]] with Python's treatment of negative and
    out-of-range bounds. *)
Definition slice_bound (len i : Z) : Z :=
  if i <? 0 then Z.max 0 (i + len) else Z.min i len.

Definition slice {A : Type} (data : list A) (start stop : Z) : list A :=
  let len := Z.of_nat (List.length data) in
  let lo := slice_bound len start in
  let hi := slice_bound len stop in
  firstn (Z.to_nat (hi - lo)) (skipn (Z.to_nat lo) data).

(** [Counter(xs)]: one entry per distinct element, in order of first
    occurrence, holding the number of occurrences. *)
Definition counter_add (c : dict Z) (x : Z) : dict Z :=
  match dict_get x c with
  | Some n => dict_set x (n + 1) c
  | None => dict_set x 1 c
  end.

Definition Counter (xs : list Z) : dict Z := fold_left counter_add xs [].

(** [Query(default, ...)] of an [int] or [bool] parameter: an absent
    parameter takes the default unchecked, a present one must satisfy the
    constraint. *)
Definition Query {A : Type} (default : A) (ok : A -> bool) (given : option A) : res A :=
  match given with
  | None => Ok default
  | Some v => if ok v then Ok v else Err RequestValidationError
  end.

(** [Query(default=None, ...)] of an optional parameter. *)
Definition QueryNone {A : Type} (ok : A -> bool) (given : option A) : res (option A) :=
  match given with
  | None => Ok None
  | Some v => if ok v then Ok (Some v) else Err RequestValidationError
  end.

(** The constraints [ge=0] and [gt=0], on ints and on floats. *)
Definition ge0 (v : Z) : bool := 0 <=? v.
Definition gt0 (v : Z) : bool := 0 <? v.
Definition fge0 (v : float) : bool := PrimFloat.leb PrimFloat.zero v.
Definition fgt0 (v : float) : bool := PrimFloat.ltb PrimFloat.zero v.
Definition unconstrained {A : Type} (v : A) : bool := true.

(** [bound is None or lo <= x], the shape of every filter condition. *)
Definition none_or {A : Type} (p : A -> bool) (bound : option A) : bool :=
  match bound with
  | None => true
  | Some b => p b
  end.

(** ** The models *)

Module Item.
Record t : Type := mk { id : Z; name : string; price : float; deleted : bool }.
End Item.

Module CartItem.
Record t : Type := mk { id : Z; name : string; quantity : Z; available : bool }.
End CartItem.

Module Cart.
Record t : Type := mk { id : Z; item_ids : list Z }.
End Cart.

Module CartResponse.
Record t : Type := mk { id : Z; items : list CartItem.t; price : float }.
End CartResponse.

Module CartCreatedResponse.
Record t : Type := mk { id : Z }.
End CartCreatedResponse.

Module CreateItemRequest.
Record t : Type := mk { name : string; price : float }.
End CreateItemRequest.

(** Both fields default to [None]; [extra = "forbid"] rejects any other
    field before the handler runs, so a request that reaches [patch_item]
    is exactly such a pair. *)
Module UpdateItemRequest.
Record t : Type := mk { name : option string; price : option float }.
End UpdateItemRequest.

(** ** The store: [items_map] and [cart_map] *)

Record store : Type := mkStore {
  items_map : dict Item.t;
  cart_map : dict Cart.t
}.

Definition empty_store : store := {| items_map := []; cart_map := [] |}.

Definition set_items_map (s : store) (m : dict Item.t) : store :=
  {| items_map := m; cart_map := cart_map s |}.

Definition set_cart_map (s : store) (m : dict Cart.t) : store :=
  {| items_map := items_map s; cart_map := m |}.

(** ** Helpers of main.py *)

Definition build_cart_item (s : store) (id count : Z) : res CartItem.t :=
  match dict_get id (items_map s) with
  | None => Err AttributeError
  | Some item =>
      Ok {| CartItem.id := id;
            CartItem.name := Item.name item;
            CartItem.quantity := count;
            CartItem.available := negb (Item.deleted item) |}
  end.

(** One term of the generator summed in [build_cart_response]. *)
Definition line_total (s : store) (item : CartItem.t) : res float :=
  it <- dict_item (CartItem.id item) (items_map s) ;;
  Ok (PrimFloat.mul (float_of_int (CartItem.quantity item)) (Item.price it)).

Definition build_cart_response (s : store) (cart : Cart.t) : res CartResponse.t :=
  let counter := Counter (Cart.item_ids cart) in
  items <- mapM (fun '(id, count) => build_cart_item s id count) counter ;;
  totals <- mapM (line_total s) (filter CartItem.available items) ;;
  Ok {| CartResponse.id := Cart.id cart;
        CartResponse.items := items;
        CartResponse.price := fsum totals |}.

Definition build_item (id : Z) (request : CreateItemRequest.t) : Item.t :=
  {| Item.id := id;
     Item.name := CreateItemRequest.name request;
     Item.price := CreateItemRequest.price request;
     Item.deleted := false |}.

Definition assert_cart_exists (s : store) (cart_id : Z) : res unit :=
  if dict_mem cart_id (cart_map s) then Ok tt
  else Err (HTTPException NOT_FOUND ("Cart with id=" ++ str cart_id ++ " not found")%string).

Definition assert_item_exists (s : store) (id : Z) : res unit :=
  if dict_mem id (items_map s) then Ok tt
  else Err (HTTPException NOT_FOUND ("Item with id=" ++ str id ++ " not found")%string).

Definition apply_offset_limit {A : Type} (data : list A) (offset limit : Z) : list A :=
  slice data offset (Z.min (Z.of_nat (List.length data)) (offset + limit)).

(** ** The handlers *)

(** POST /cart: the [location] header and the body. *)
Definition create_cart (s : store) : store * (string * CartCreatedResponse.t) :=
  let id := dict_len (items_map s) + 1 in
  let cart := {| Cart.id := id; Cart.item_ids := [] |} in
  (set_cart_map s (dict_set id cart (cart_map s)),
   (("/cart/" ++ str id)%string, {| CartCreatedResponse.id := id |})).

(** POST /item *)
Definition create_item (s : store) (request : CreateItemRequest.t) : store * Item.t :=
  let id := dict_len (items_map s) + 1 in
  let item := build_item id request in
  (set_items_map s (dict_set id item (items_map s)), item).

(** GET /cart/{id} *)
Definition get_cart (s : store) (id : Z) : res CartResponse.t :=
  assert_cart_exists s id ;;;
  cart <- dict_item id (cart_map s) ;;
  build_cart_response s cart.

(** GET /item/{id} *)
Definition get_item (s : store) (id : Z) : res Item.t :=
  assert_item_exists s id ;;;
  item <- dict_item id (items_map s) ;;
  if Item.deleted item
  then Err (HTTPException NOT_FOUND ("Item with id=" ++ str id ++ " was deleted")%string)
  else Ok item.

Definition total_quantity (cart : CartResponse.t) : Z :=
  isum (map CartItem.quantity (CartResponse.items cart)).

Definition carts_filter (min_price max_price : option float)
    (min_quantity max_quantity : option Z) (cart : CartResponse.t) : bool :=
  none_or (fun b => PrimFloat.leb b (CartResponse.price cart)) min_price &&
  none_or (fun b => PrimFloat.leb (CartResponse.price cart) b) max_price &&
  none_or (fun b => b <=? total_quantity cart) min_quantity &&
  none_or (fun b => total_quantity cart <=? b) max_quantity.

(** GET /cart *)
Definition get_carts (s : store) (offset limit : option Z)
    (min_price max_price : option float) (min_quantity max_quantity : option Z)
    : res (list CartResponse.t) :=
  offset <- Query 0 ge0 offset ;;
  limit <- Query 10 gt0 limit ;;
  min_price <- QueryNone fge0 min_price ;;
  max_price <- QueryNone fge0 max_price ;;
  min_quantity <- QueryNone ge0 min_quantity ;;
  max_quantity <- QueryNone ge0 max_quantity ;;
  carts <- mapM (build_cart_response s) (dict_values (cart_map s)) ;;
  let carts_filtered :=
    filter (carts_filter min_price max_price min_quantity max_quantity) carts in
  Ok (apply_offset_limit carts_filtered offset limit).

(** POST /cart/{cart_id}/add/{item_id} *)
Definition add_item_to_cart (s : store) (cart_id item_id : Z) : res store :=
  assert_cart_exists s cart_id ;;;
  assert_item_exists s item_id ;;;
  cart <- dict_item cart_id (cart_map s) ;;
  let cart' := {| Cart.id := Cart.id cart;
                  Cart.item_ids := Cart.item_ids cart ++ [item_id] |} in
  Ok (set_cart_map s (dict_set cart_id cart' (cart_map s))).

Definition items_filter (min_price max_price : option float) (show_deleted : bool)
    (item : Item.t) : bool :=
  none_or (fun b => PrimFloat.leb b (Item.price item)) min_price &&
  none_or (fun b => PrimFloat.leb (Item.price item) b) max_price &&
  (show_deleted || negb (Item.deleted item)).

(** GET /item *)
Definition get_items (s : store) (offset limit : option Z)
    (min_price max_price : option float) (show_deleted : option bool)
    : res (list Item.t) :=
  offset <- Query 0 ge0 offset ;;
  limit <- Query 10 gt0 limit ;;
  min_price <- QueryNone fgt0 min_price ;;
  max_price <- QueryNone fgt0 max_price ;;
  show_deleted <- Query true unconstrained show_deleted ;;
  let items_filtered :=
    filter (items_filter min_price max_price show_deleted) (dict_values (items_map s)) in
  Ok (apply_offset_limit items_filtered offset limit).

(** PUT /item/{id} *)
Definition put_item (s : store) (id : Z) (request : CreateItemRequest.t)
    : res (store * Item.t) :=
  assert_item_exists s id ;;;
  let item := build_item id request in
  Ok (set_items_map s (dict_set id item (items_map s)), item).

(** PATCH /item/{id}: the response's status code and the body.  The item
    is mutated in place, which is a write to its slot of [items_map]. *)
Definition patch_item (s : store) (id : Z) (request : UpdateItemRequest.t)
    : res (store * (HTTPStatus * Item.t)) :=
  assert_item_exists s id ;;;
  item <- dict_item id (items_map s) ;;
  if Item.deleted item then Ok (s, (NOT_MODIFIED, item))
  else
    let item :=
      match UpdateItemRequest.name request with
      | Some name => {| Item.id := Item.id item; Item.name := name;
                        Item.price := Item.price item; Item.deleted := Item.deleted item |}
      | None => item
      end in
    let item :=
      match UpdateItemRequest.price request with
      | Some price => {| Item.id := Item.id item; Item.name := Item.name item;
                         Item.price := price; Item.deleted := Item.deleted item |}
      | None => item
      end in
    Ok (set_items_map s (dict_set id item (items_map s)), (OK, item)).

(** DELETE /item/{id} *)
Definition delete_item (s : store) (id : Z) : res store :=
  assert_item_exists s id ;;;
  item <- dict_item id (items_map s) ;;
  let item' := {| Item.id := Item.id item; Item.name := Item.name item;
                  Item.price := Item.price item; Item.deleted := true |} in
  Ok (set_items_map s (dict_set id item' (items_map s))).

(** ** Runs of requests *)

Inductive request : Type :=
| POST_cart
| POST_item (body : CreateItemRequest.t)
| GET_cart (id : Z)
| GET_item (id : Z)
| GET_carts (offset limit : option Z) (min_price max_price : option float)
    (min_quantity max_quantity : option Z)
| POST_cart_add (cart_id item_id : Z)
| GET_items (offset limit : option Z) (min_price max_price : option float)
    (show_deleted : option bool)
| PUT_item (id : Z) (body : CreateItemRequest.t)
| PATCH_item (id : Z) (body : UpdateItemRequest.t)
| DELETE_item (id : Z).

(** The store a request leaves behind.  A request that raises has not
    written anything, and the GET handlers never write. *)
Definition handle (s : store) (r : request) : store :=
  match r with
  | POST_cart => fst (create_cart s)
  | POST_item body => fst (create_item s body)
  | POST_cart_add cart_id item_id =>
      match add_item_to_cart s cart_id item_id with Ok s' => s' | Err _ => s end
  | PUT_item id body =>
      match put_item s id body with Ok (s', _) => s' | Err _ => s end
  | PATCH_item id body =>
      match patch_item s id body with Ok (s', _) => s' | Err _ => s end
  | DELETE_item id =>
      match delete_item s id with Ok s' => s' | Err _ => s end
  | GET_cart _ | GET_item _ | GET_carts _ _ _ _ _ _ | GET_items _ _ _ _ _ => s
  end.

Definition run (s : store) (rs : list request) : store := fold_left handle rs s.

(** The stores the service can be in: those some run of requests reaches
    from the empty dictionaries the module starts with. *)
Definition reachable (s : store) : Prop := exists rs, s = run empty_store rs.

(** ** Notions the statements are written in *)

(** The number of occurrences of [x] in [xs], as an [int]. *)
Definition count_of (xs : list Z) (x : Z) : Z := Z.of_nat (count_occ Z.eq_dec xs x).

(** The distinct elements of [xs] in order of first occurrence. *)
Fixpoint distinct (xs : list Z) : list Z :=
  match xs with
  | [] => []
  | x :: xs' => x :: remove Z.eq_dec x (distinct xs')
  end.

(** The dictionary that holds [f k] under each key of [ks], in that order. *)
Definition tabulate {V : Type} (f : Z -> V) (ks : list Z) : dict V :=
  map (fun k => (k, f k)) ks.

(** The ids [1, 2, ..., n]. *)
Definition ids_upto (n : nat) : list Z := map Z.of_nat (seq 1 n).

(** The item catalogue holds the ids [1..n] in creation order, each entry
    under its own id. *)
Definition items_wf (m : dict Item.t) : Prop :=
  dict_keys m = ids_upto (List.length m) /\
  Forall (fun kv => Item.id (snd kv) = fst kv) m.

(** Every id a cart holds is a key of the item catalogue. *)
Definition cart_refs_ok (m : dict Item.t) (cart : Cart.t) : Prop :=
  Forall (fun id => dict_mem id m = true) (Cart.item_ids cart).

Definition refs_ok (s : store) : Prop :=
  Forall (fun kc => cart_refs_ok (items_map s) (snd kc)) (cart_map s).

(** What every reachable store satisfies. *)
Definition inv (s : store) : Prop := items_wf (items_map s) /\ refs_ok s.

(** The line the view shows for [id], given the catalogue's entry. *)
Definition line_of (ids : list Z) (id : Z) (item : Item.t) : CartItem.t :=
  {| CartItem.id := id;
     CartItem.name := Item.name item;
     CartItem.quantity := count_of ids id;
     CartItem.available := negb (Item.deleted item) |}.

(** A 404 answer, whatever its detail. *)
Definition is_not_found {A : Type} (r : res A) : bool :=
  match r with
  | Err (HTTPException NOT_FOUND _) => true
  | _ => false
  end.

(** The requests that delete the item stored under [id]. *)
Definition deletes_item (id : Z) (r : request) : bool :=
  match r with
  | DELETE_item id' => id' =? id
  | _ => false
  end.

(** The requests that write the item stored under [id]. *)
Definition writes_item (id : Z) (r : request) : bool :=
  match r with
  | PUT_item id' _ | PATCH_item id' _ | DELETE_item id' => id' =? id
  | _ => false
  end.

(** The value a [Query] parameter takes: the one given, or the default. *)
Definition or_default {A : Type} (d : A) (given : option A) : A :=
  match given with
  | Some v => v
  | None => d
  end.

(** The query of GET /cart passes the boundary. *)
Definition carts_query_ok (offset limit : option Z) (min_price max_price : option float)
    (min_quantity max_quantity : option Z) : bool :=
  none_or ge0 offset && none_or gt0 limit &&
  none_or fge0 min_price && none_or fge0 max_price &&
  none_or ge0 min_quantity && none_or ge0 max_quantity.

(** The query of GET /item passes the boundary. *)
Definition items_query_ok (offset limit : option Z) (min_price max_price : option float)
    : bool :=
  none_or ge0 offset && none_or gt0 limit &&
  none_or fgt0 min_price && none_or fgt0 max_price.

(** The price range of the listing, both bounds included; a bound that is
    not given does not constrain. *)
Definition in_price_range (lo hi : option float) (p : float) : bool :=
  match lo with Some b => PrimFloat.leb b p | None => true end &&
  match hi with Some b => PrimFloat.leb p b | None => true end.

(** Deletion visibility: deleted items show only when asked for. *)
Definition visible (show_deleted : bool) (item : Item.t) : bool :=
  show_deleted || negb (Item.deleted item).

(** The items a listing is paginated over, in the order stored. *)
Definition listed (lo hi : option float) (show_deleted : bool) (items : list Item.t)
    : list Item.t :=
  filter (fun item => in_price_range lo hi (Item.price item) && visible show_deleted item)
         items.

(** ** Sample stores and runs *)

(** An apple at 10.0 and a deleted banana at 5.0, no cart. *)
Definition patch_demo_store : store :=
  {| items_map := [(1, Item.mk 1 "apple" 10 false); (2, Item.mk 2 "banana" 5 true)];
     cart_map := [] |}.

Definition apple : CreateItemRequest.t := CreateItemRequest.mk "apple" 10.
Definition banana : CreateItemRequest.t := CreateItemRequest.mk "banana" 5.

(** One item, one cart created after it, the item put in the cart. *)
Definition one_cart_run : list request := [POST_item apple; POST_cart; POST_cart_add 2 1].

(** A cart that names item 7 in a store with no item: no run of requests
    builds it, but [build_cart_response] accepts any [Cart]. *)
Definition dangling_store : store :=
  {| items_map := []; cart_map := [(1, Cart.mk 1 [7])] |}.

(** A cart holding two live apples and one deleted banana. *)
Definition deleted_line_store : store :=
  {| items_map := [(1, Item.mk 1 "apple" 10 false); (2, Item.mk 2 "banana" 5 true)];
     cart_map := [(3, Cart.mk 3 [1; 1; 2])] |}.

(** The run of the spec's scenario: two items, a cart (numbered 3, after
    the two items), two apples and a banana put in it. *)
Definition scenario_run : list request :=
  [POST_item apple; POST_item banana; POST_cart;
   POST_cart_add 3 1; POST_cart_add 3 1; POST_cart_add 3 2].

(** A PATCH body that sets the price only. *)
Definition set_price (p : float) : UpdateItemRequest.t :=
  {| UpdateItemRequest.name := None; UpdateItemRequest.price := Some p |}.

(** Three items priced 5.0, 10.0 and 15.0, the middle one deleted. *)
Definition three_items : store :=
  {| items_map := [(1, Item.mk 1 "banana" 5 false);
                   (2, Item.mk 2 "apple" 10 true);
                   (3, Item.mk 3 "cherry" 15 false)];
     cart_map := [] |}.

(** ** Further notions: the cart store and the run *)

(** Each cart sits under its own id, the ids are distinct, and none is
    past the one [create_cart] would give next. *)
Definition carts_wf (s : store) : Prop :=
  Forall (fun kc => Cart.id (snd kc) = fst kc /\
                    1 <= fst kc <= dict_len (items_map s) + 1) (cart_map s) /\
  NoDup (dict_keys (cart_map s)).

(** The number of POST /item requests in a run. *)
Definition is_POST_item (r : request) : bool :=
  match r with
  | POST_item _ => true
  | _ => false
  end.

Definition count_POST_item (rs : list request) : nat :=
  List.length (filter is_POST_item rs).

(** A cart view lies within the bounds of a GET /cart query. *)
Definition view_in_bounds (min_price max_price : option float)
    (min_quantity max_quantity : option Z) (v : CartResponse.t) : Prop :=
  (forall b, min_price = Some b -> PrimFloat.leb b (CartResponse.price v) = true) /\
  (forall b, max_price = Some b -> PrimFloat.leb (CartResponse.price v) b = true) /\
  (forall b, min_quantity = Some b -> b <= total_quantity v) /\
  (forall b, max_quantity = Some b -> total_quantity v <= b).

(** A PATCH body that sets nothing. *)
Definition empty_patch : UpdateItemRequest.t :=
  {| UpdateItemRequest.name := None; UpdateItemRequest.price := None |}.

(** The item as [delete_item] leaves it. *)
Definition mark_deleted (item : Item.t) : Item.t :=
  {| Item.id := Item.id item; Item.name := Item.name item;
     Item.price := Item.price item; Item.deleted := true |}.

(** The 404 of [assert_item_exists]. *)
Definition item_not_found (id : Z) : exn :=
  HTTPException NOT_FOUND ("Item with id=" ++ str id ++ " not found")%string.

(** The 404 of [assert_cart_exists]. *)
Definition cart_not_found (id : Z) : exn :=
  HTTPException NOT_FOUND ("Cart with id=" ++ str id ++ " not found")%string.

(** * Facts about the containers *)

Lemma bind_Ok {A B : Type} (m : res A) (k : A -> res B) (b : B) :
  bind m k = Ok b -> exists a, m = Ok a /\ k a = Ok b.
Proof. destruct m as [a|e]; simpl; intros H; [eauto | discriminate]. Qed.

Lemma mapM_Ok_Forall2 {A B : Type} (f : A -> res B) (xs : list A) (ys : list B) :
  mapM f xs = Ok ys <-> Forall2 (fun x y => f x = Ok y) xs ys.
Proof.
  revert ys; induction xs as [|x xs IH]; intros ys; simpl.
  - split; intros H.
    + injection H as <-. constructor.
    + inversion H. reflexivity.
  - split; intros H.
    + apply bind_Ok in H as (y & Hy & H).
      apply bind_Ok in H as (ys' & Hys & H).
      injection H as <-. constructor; [assumption | now apply IH].
    + inversion H as [|? y ? ys' Hy Hys]; subst.
      rewrite Hy. simpl. apply IH in Hys. rewrite Hys. reflexivity.
Qed.

Lemma mapM_total {A B : Type} (f : A -> res B) (xs : list A) :
  Forall (fun x => exists y, f x = Ok y) xs -> exists ys, mapM f xs = Ok ys.
Proof.
  induction 1 as [|x xs [y Hy] _ [ys Hys]]; simpl.
  - eauto.
  - rewrite Hy, Hys. simpl. eauto.
Qed.

Section DictFacts.
Context {V : Type}.
Implicit Types (d : dict V) (k j : Z) (v : V).

Lemma dict_get_set_same k v d : dict_get k (dict_set k v d) = Some v.
Proof.
  induction d as [|[k' v'] d IH]; simpl.
  - now rewrite Z.eqb_refl.
  - destruct (k' =? k) eqn:E; simpl.
    + now rewrite Z.eqb_refl.
    + now rewrite E.
Qed.

Lemma dict_get_set_other k j v d :
  j <> k -> dict_get j (dict_set k v d) = dict_get j d.
Proof.
  intros Hjk. induction d as [|[k' v'] d IH]; simpl.
  - destruct (k =? j) eqn:E; [apply Z.eqb_eq in E; congruence | reflexivity].
  - destruct (k' =? k) eqn:E; simpl.
    + apply Z.eqb_eq in E. subst k'.
      destruct (k =? j) eqn:E'; [apply Z.eqb_eq in E'; congruence | reflexivity].
    + now rewrite IH.
Qed.

Lemma dict_mem_set k j v d :
  dict_mem j (dict_set k v d) = (j =? k) || dict_mem j d.
Proof.
  unfold dict_mem. destruct (Z.eqb_spec j k) as [->|Hne]; simpl.
  - now rewrite dict_get_set_same.
  - now rewrite dict_get_set_other.
Qed.

Lemma dict_get_None_keys k d : dict_get k d = None <-> ~ In k (dict_keys d).
Proof.
  induction d as [|[k' v'] d IH]; simpl.
  - tauto.
  - destruct (Z.eqb_spec k' k) as [->|Hne].
    + split; [discriminate | tauto].
    + rewrite IH. tauto.
Qed.

Lemma dict_mem_keys k d : dict_mem k d = true <-> In k (dict_keys d).
Proof.
  unfold dict_mem. destruct (dict_get k d) eqn:E.
  - split; [intros _ | reflexivity].
    destruct (in_dec Z.eq_dec k (dict_keys d)) as [H|H]; [assumption|].
    apply dict_get_None_keys in H. congruence.
  - apply dict_get_None_keys in E. split; [discriminate | tauto].
Qed.

Lemma dict_get_In k v d : dict_get k d = Some v -> In (k, v) d.
Proof.
  induction d as [|[k' v'] d IH]; simpl; [discriminate|].
  destruct (Z.eqb_spec k' k) as [->|Hne].
  - intros [= ->]. now left.
  - intros H. right. auto.
Qed.

(** A write to a key the dictionary holds changes no key and no position. *)
Lemma dict_keys_set_old k v d :
  dict_mem k d = true -> dict_keys (dict_set k v d) = dict_keys d.
Proof.
  unfold dict_mem. induction d as [|[k' v'] d IH]; simpl; [discriminate|].
  destruct (Z.eqb_spec k' k) as [->|Hne]; simpl; [reflexivity|].
  intros H. now rewrite IH.
Qed.

(** A write to a new key appends the entry. *)
Lemma dict_set_new k v d : dict_get k d = None -> dict_set k v d = d ++ [(k, v)].
Proof.
  induction d as [|[k' v'] d IH]; simpl; [reflexivity|].
  destruct (k' =? k); [discriminate|].
  intros H. now rewrite IH.
Qed.

Lemma dict_set_length_old k v d :
  dict_mem k d = true -> List.length (dict_set k v d) = List.length d.
Proof.
  intros H. apply dict_keys_set_old with (v := v) in H.
  unfold dict_keys in H. apply (f_equal (@List.length Z)) in H.
  now rewrite !length_map in H.
Qed.

(** What holds of every entry and of the entry written holds after the
    write. *)
Lemma Forall_dict_set (P : Z * V -> Prop) k v d :
  Forall P d -> P (k, v) -> Forall P (dict_set k v d).
Proof.
  intros Hd Hkv. induction Hd as [|[k' v'] d Hx Hd IH]; simpl.
  - now constructor.
  - destruct (k' =? k); constructor; assumption.
Qed.
End DictFacts.

(** ** [Counter] *)

Lemma count_of_app xs ys x : count_of (xs ++ ys) x = count_of xs x + count_of ys x.
Proof. unfold count_of. rewrite count_occ_app. lia. Qed.

Lemma count_of_snoc xs x j :
  count_of (xs ++ [x]) j = count_of xs j + (if j =? x then 1 else 0).
Proof.
  rewrite count_of_app. f_equal. unfold count_of. simpl.
  destruct (Z.eq_dec x j) as [->|Hne].
  - now rewrite Z.eqb_refl.
  - destruct (Z.eqb_spec j x); [congruence | reflexivity].
Qed.

Lemma In_distinct xs x : In x (distinct xs) <-> In x xs.
Proof.
  induction xs as [|a xs IH]; simpl; [tauto|].
  destruct (Z.eq_dec a x) as [->|Hne]; [tauto|].
  split.
  - intros [H|H]; [tauto|]. apply in_remove in H. right. now apply IH.
  - intros [H|H]; [tauto|]. right. apply in_in_remove; [congruence | now apply IH].
Qed.

Lemma NoDup_remove_eq (x : Z) l : NoDup l -> NoDup (remove Z.eq_dec x l).
Proof.
  induction 1 as [|a l Ha Hl IH]; simpl; [constructor|].
  destruct (Z.eq_dec x a); [assumption|].
  constructor; [|assumption]. intros H. apply in_remove in H. tauto.
Qed.

Lemma NoDup_distinct xs : NoDup (distinct xs).
Proof.
  induction xs as [|a xs IH]; simpl; constructor.
  - apply remove_In.
  - now apply NoDup_remove_eq.
Qed.

Lemma distinct_snoc xs x :
  distinct (xs ++ [x]) = if in_dec Z.eq_dec x xs then distinct xs else distinct xs ++ [x].
Proof.
  induction xs as [|a xs IH]; simpl; [reflexivity|].
  rewrite IH. destruct (in_dec Z.eq_dec x xs) as [Hin|Hnin].
  - destruct (Z.eq_dec a x); reflexivity.
  - rewrite remove_app. simpl.
    destruct (Z.eq_dec a x) as [->|Hne].
    + now rewrite app_nil_r.
    + reflexivity.
Qed.

Section KeyedMaps.
Context {V : Type}.
Implicit Types (f : Z -> V) (ks : list Z).

Lemma dict_get_tabulate f ks k :
  dict_get k (tabulate f ks) = if in_dec Z.eq_dec k ks then Some (f k) else None.
Proof.
  induction ks as [|a ks IH]; simpl; [reflexivity|].
  destruct (Z.eqb_spec a k) as [->|Hne].
  - destruct (Z.eq_dec k k); [reflexivity | congruence].
  - rewrite IH. destruct (Z.eq_dec a k); [congruence|].
    destruct (in_dec Z.eq_dec k ks); reflexivity.
Qed.

Lemma dict_set_tabulate_new f ks k v :
  ~ In k ks -> dict_set k v (tabulate f ks) = tabulate f ks ++ [(k, v)].
Proof.
  intros H. apply dict_set_new. rewrite dict_get_tabulate.
  destruct (in_dec Z.eq_dec k ks); tauto.
Qed.

Lemma dict_set_tabulate_old f ks k v :
  In k ks -> NoDup ks ->
  dict_set k v (tabulate f ks) = tabulate (fun j => if j =? k then v else f j) ks.
Proof.
  intros Hin Hnd. induction Hnd as [|a ks Ha Hnd IH]; simpl; [destruct Hin|].
  destruct (Z.eqb_spec a k) as [->|Hne].
  - f_equal. apply map_ext_in. intros j Hj.
    destruct (Z.eqb_spec j k) as [->|]; [tauto | reflexivity].
  - f_equal. destruct Hin as [->|Hin]; [congruence | auto].
Qed.
End KeyedMaps.

(** [Counter(xs)] lists the distinct elements of [xs] in order of first
    occurrence, each with its number of occurrences. *)
Lemma Counter_spec xs : Counter xs = tabulate (count_of xs) (distinct xs).
Proof.
  unfold Counter. induction xs as [|x xs IH] using rev_ind; [reflexivity|].
  rewrite fold_left_app. simpl. rewrite IH. unfold counter_add.
  rewrite dict_get_tabulate, distinct_snoc.
  destruct (in_dec Z.eq_dec x (distinct xs)) as [Hd|Hd];
    destruct (in_dec Z.eq_dec x xs) as [Hx|Hx];
    try (pose proof (In_distinct xs x); tauto).
  - rewrite dict_set_tabulate_old by (auto using NoDup_distinct).
    apply map_ext_in. intros j Hj. f_equal. rewrite count_of_snoc.
    destruct (Z.eqb_spec j x) as [->|Hne]; lia.
  - rewrite dict_set_tabulate_new by assumption.
    unfold tabulate. rewrite map_app. simpl. f_equal.
    + apply map_ext_in. intros j Hj. f_equal. rewrite count_of_snoc.
      destruct (Z.eqb_spec j x) as [->|Hne]; [tauto | lia].
    + rewrite count_of_snoc, Z.eqb_refl. unfold count_of.
      rewrite (count_occ_not_In Z.eq_dec xs x) in Hx. now rewrite Hx.
Qed.

(** ** Slices *)

Lemma firstn_min_length {A : Type} (n : nat) (l : list A) :
  firstn (Nat.min n (List.length l)) l = firstn n l.
Proof.
  destruct (Nat.le_ge_cases n (List.length l)) as [H|H].
  - now rewrite Nat.min_l.
  - rewrite Nat.min_r by assumption. now rewrite firstn_all, firstn_all2.
Qed.

(** For the offsets and limits the boundary lets through, the slice of
    [apply_offset_limit] drops [offset] elements and keeps at most [limit]. *)
Lemma apply_offset_limit_spec {A : Type} (data : list A) (offset limit : Z) :
  0 <= offset -> 0 <= limit ->
  apply_offset_limit data offset limit =
  firstn (Z.to_nat limit) (skipn (Z.to_nat offset) data).
Proof.
  intros Ho Hl. unfold apply_offset_limit, slice, slice_bound.
  set (len := Z.of_nat (List.length data)).
  assert (Hlen : 0 <= len) by (subst len; lia).
  destruct (offset <? 0) eqn:E1; [apply Z.ltb_lt in E1; lia|].
  destruct (Z.min len (offset + limit) <? 0) eqn:E2; [apply Z.ltb_lt in E2; lia|].
  destruct (Z_lt_le_dec offset len) as [Hlt|Hge].
  - rewrite <- (firstn_min_length (Z.to_nat limit)).
    rewrite (Z.min_l offset len) by lia. f_equal.
    rewrite length_skipn. subst len. lia.
  - rewrite (skipn_all2 data) by (subst len; lia).
    rewrite (skipn_all2 data) by (subst len; lia).
    now rewrite !firstn_nil.
Qed.

(** ** Invariants of the reachable stores *)

Lemma In_ids_upto n k : In k (ids_upto n) <-> 1 <= k <= Z.of_nat n.
Proof.
  unfold ids_upto. rewrite in_map_iff. split.
  - intros (i & <- & Hi). apply in_seq in Hi. lia.
  - intros Hk. exists (Z.to_nat k). split; [lia|]. apply in_seq. lia.
Qed.

Lemma ids_upto_S n : ids_upto (S n) = ids_upto n ++ [Z.of_nat n + 1].
Proof.
  unfold ids_upto. rewrite seq_S, map_app. simpl. do 2 f_equal. lia.
Qed.

(** In a well-formed catalogue the next id is not taken. *)
Lemma items_wf_fresh m : items_wf m -> dict_get (dict_len m + 1) m = None.
Proof.
  intros [Hk _]. apply dict_get_None_keys. rewrite Hk, In_ids_upto.
  unfold dict_len. lia.
Qed.

Lemma items_wf_id m id item : items_wf m -> dict_get id m = Some item -> Item.id item = id.
Proof.
  intros [_ Hid] H. apply dict_get_In in H.
  rewrite Forall_forall in Hid. exact (Hid _ H).
Qed.

Lemma items_wf_append m request :
  items_wf m ->
  items_wf (dict_set (dict_len m + 1) (build_item (dict_len m + 1) request) m).
Proof.
  intros Hwf. pose proof (items_wf_fresh m Hwf) as Hfresh.
  destruct Hwf as [Hk Hid]. rewrite dict_set_new by assumption. split.
  - unfold dict_keys in *. rewrite map_app, length_app, Hk. simpl.
    rewrite Nat.add_1_r, ids_upto_S. reflexivity.
  - apply Forall_app. split; [assumption|]. now repeat constructor.
Qed.

Lemma items_wf_overwrite m id item :
  items_wf m -> dict_mem id m = true -> Item.id item = id ->
  items_wf (dict_set id item m).
Proof.
  intros [Hk Hid] Hmem Hitem. split.
  - rewrite dict_keys_set_old, dict_set_length_old by assumption. exact Hk.
  - apply Forall_dict_set; assumption.
Qed.

Lemma cart_refs_ok_set m id item cart :
  cart_refs_ok m cart -> cart_refs_ok (dict_set id item m) cart.
Proof.
  unfold cart_refs_ok. apply Forall_impl. intros i Hi.
  rewrite dict_mem_set, Hi. apply orb_true_r.
Qed.

Lemma refs_ok_set_items s id item :
  refs_ok s -> refs_ok (set_items_map s (dict_set id item (items_map s))).
Proof.
  unfold refs_ok. simpl. apply Forall_impl. intros kc. apply cart_refs_ok_set.
Qed.

Lemma refs_ok_get s id cart :
  refs_ok s -> dict_get id (cart_map s) = Some cart -> cart_refs_ok (items_map s) cart.
Proof.
  intros H Hget. apply dict_get_In in Hget.
  unfold refs_ok in H. rewrite Forall_forall in H. exact (H _ Hget).
Qed.

(** What an [assert_*] helper and the lookup after it establish. *)
Lemma assert_item_exists_Ok s id :
  assert_item_exists s id = Ok tt <-> dict_mem id (items_map s) = true.
Proof.
  unfold assert_item_exists. destruct (dict_mem id (items_map s)); split; congruence.
Qed.

Lemma inv_empty : inv empty_store.
Proof. repeat split; constructor. Qed.

Lemma inv_handle s r : inv s -> inv (handle s r).
Proof.
  intros [Hwf Hrefs]. destruct r as [|body|?|?|? ? ? ? ? ?|cid iid|? ? ? ? ?|id body|id body|id];
    simpl; try (split; assumption).
  - (* POST /cart *)
    split; [assumption|]. unfold refs_ok. simpl.
    apply Forall_dict_set; [assumption | constructor].
  - (* POST /item *)
    split; [now apply items_wf_append | now apply refs_ok_set_items].
  - (* POST /cart/{cart_id}/add/{item_id} *)
    unfold add_item_to_cart, assert_cart_exists, assert_item_exists, dict_item.
    destruct (dict_mem cid (cart_map s)); simpl; [|split; assumption].
    destruct (dict_mem iid (items_map s)) eqn:Hi; simpl; [|split; assumption].
    destruct (dict_get cid (cart_map s)) as [cart|] eqn:Hc; simpl; [|split; assumption].
    split; [assumption|]. unfold refs_ok. simpl.
    apply Forall_dict_set; [assumption|]. unfold cart_refs_ok. simpl.
    apply Forall_app. split; [exact (refs_ok_get _ _ _ Hrefs Hc) | now repeat constructor].
  - (* PUT /item/{id} *)
    unfold put_item, assert_item_exists.
    destruct (dict_mem id (items_map s)) eqn:Hi; simpl; [|split; assumption].
    split; [now apply items_wf_overwrite | now apply refs_ok_set_items].
  - (* PATCH /item/{id} *)
    unfold patch_item, assert_item_exists, dict_item.
    destruct (dict_mem id (items_map s)) eqn:Hi; simpl; [|split; assumption].
    destruct (dict_get id (items_map s)) as [item|] eqn:Hg; simpl; [|split; assumption].
    destruct (Item.deleted item); [split; assumption|].
    split; [|now apply refs_ok_set_items].
    apply items_wf_overwrite; try assumption.
    pose proof (items_wf_id _ _ _ Hwf Hg).
    destruct (UpdateItemRequest.name body), (UpdateItemRequest.price body); assumption.
  - (* DELETE /item/{id} *)
    unfold delete_item, assert_item_exists, dict_item.
    destruct (dict_mem id (items_map s)) eqn:Hi; simpl; [|split; assumption].
    destruct (dict_get id (items_map s)) as [item|] eqn:Hg; simpl; [|split; assumption].
    split; [|now apply refs_ok_set_items].
    apply items_wf_overwrite; try assumption.
    exact (items_wf_id _ _ _ Hwf Hg).
Qed.

Lemma inv_run rs : forall s, inv s -> inv (run s rs).
Proof.
  induction rs as [|r rs IH]; intros s Hs; simpl; [assumption|].
  apply IH. now apply inv_handle.
Qed.

Lemma reachable_inv s : reachable s -> inv s.
Proof. intros [rs ->]. apply inv_run, inv_empty. Qed.

(** ** Lookups under the handlers *)

Lemma dict_mem_get {V : Type} (k : Z) (d : dict V) (v : V) :
  dict_get k d = Some v -> dict_mem k d = true.
Proof. unfold dict_mem. now intros ->. Qed.

Lemma dict_mem_false {V : Type} (k : Z) (d : dict V) :
  dict_get k d = None -> dict_mem k d = false.
Proof. unfold dict_mem. now intros ->. Qed.

(** A request that does not write the item under [id] leaves it as it is;
    in particular no later [create_item] lands on a taken id. *)
Lemma handle_keeps_item s r id item :
  inv s -> dict_get id (items_map s) = Some item -> writes_item id r = false ->
  dict_get id (items_map (handle s r)) = Some item.
Proof.
  intros [Hwf _] Hget Hw.
  destruct r as [|body|?|?|? ? ? ? ? ?|cid iid|? ? ? ? ?|id' body|id' body|id'];
    simpl in *; try assumption.
  - (* POST /item *)
    rewrite dict_get_set_other; [assumption|]. intros ->.
    rewrite (items_wf_fresh _ Hwf) in Hget. discriminate.
  - unfold add_item_to_cart.
    destruct (assert_cart_exists s cid); simpl; [|assumption].
    destruct (assert_item_exists s iid); simpl; [|assumption].
    destruct (dict_item cid (cart_map s)); simpl; assumption.
  - apply Z.eqb_neq in Hw. unfold put_item.
    destruct (assert_item_exists s id'); simpl; [|assumption].
    rewrite dict_get_set_other by congruence. assumption.
  - apply Z.eqb_neq in Hw. unfold patch_item.
    destruct (assert_item_exists s id'); simpl; [|assumption].
    destruct (dict_item id' (items_map s)) as [it|]; simpl; [|assumption].
    destruct (Item.deleted it); simpl; [assumption|].
    rewrite dict_get_set_other by congruence. assumption.
  - apply Z.eqb_neq in Hw. unfold delete_item.
    destruct (assert_item_exists s id'); simpl; [|assumption].
    destruct (dict_item id' (items_map s)) as [it|]; simpl; [|assumption].
    rewrite dict_get_set_other by congruence. assumption.
Qed.

Lemma run_keeps_item rs : forall s id item,
  inv s -> dict_get id (items_map s) = Some item ->
  forallb (fun r => negb (writes_item id r)) rs = true ->
  dict_get id (items_map (run s rs)) = Some item.
Proof.
  induction rs as [|r rs IH]; intros s id item Hinv Hget Hrs; simpl in *; [assumption|].
  apply andb_true_iff in Hrs as [Hr Hrs]. apply negb_true_iff in Hr.
  apply IH; [now apply inv_handle | now apply handle_keeps_item | assumption].
Qed.

(** A request other than its DELETE leaves a live item live, under its id. *)
Lemma handle_keeps_live s r id item :
  inv s -> dict_get id (items_map s) = Some item -> Item.deleted item = false ->
  deletes_item id r = false ->
  exists item',
    dict_get id (items_map (handle s r)) = Some item' /\ Item.deleted item' = false.
Proof.
  intros Hinv Hget Hlive Hd.
  destruct (writes_item id r) eqn:Hw.
  2:{ exists item. split; [now apply handle_keeps_item | assumption]. }
  destruct r as [|body|?|?|? ? ? ? ? ?|cid iid|? ? ? ? ?|id' body|id' body|id'];
    simpl in Hw, Hd; try discriminate; [| |congruence];
    apply Z.eqb_eq in Hw; subst id'; simpl.
  - unfold put_item, assert_item_exists. rewrite (dict_mem_get _ _ _ Hget). simpl.
    eexists. split; [apply dict_get_set_same | reflexivity].
  - unfold patch_item, assert_item_exists, dict_item.
    rewrite (dict_mem_get _ _ _ Hget), Hget. simpl. rewrite Hlive. simpl.
    eexists. split; [apply dict_get_set_same|].
    now destruct (UpdateItemRequest.name body), (UpdateItemRequest.price body).
Qed.

Lemma run_keeps_live rs : forall s id item,
  inv s -> dict_get id (items_map s) = Some item -> Item.deleted item = false ->
  forallb (fun r => negb (deletes_item id r)) rs = true ->
  exists item',
    dict_get id (items_map (run s rs)) = Some item' /\ Item.deleted item' = false.
Proof.
  induction rs as [|r rs IH]; intros s id item Hinv Hget Hlive Hrs; simpl in *; [eauto|].
  apply andb_true_iff in Hrs as [Hr Hrs]. apply negb_true_iff in Hr.
  destruct (handle_keeps_live s r id item Hinv Hget Hlive Hr) as (item1 & Hget1 & Hlive1).
  apply (IH _ _ item1); auto using inv_handle.
Qed.

Lemma get_item_stored s id item :
  dict_get id (items_map s) = Some item ->
  get_item s id =
  if Item.deleted item
  then Err (HTTPException NOT_FOUND ("Item with id=" ++ str id ++ " was deleted")%string)
  else Ok item.
Proof.
  intros H. unfold get_item, assert_item_exists, dict_item.
  rewrite (dict_mem_get _ _ _ H), H. reflexivity.
Qed.

Lemma get_item_unknown s id :
  dict_get id (items_map s) = None ->
  get_item s id = Err (HTTPException NOT_FOUND ("Item with id=" ++ str id ++ " not found")%string).
Proof.
  intros H. unfold get_item, assert_item_exists.
  now rewrite (dict_mem_false _ _ H).
Qed.

(** * The item catalogue *)

(** C5. [create_cart] and [create_item] both take the new id from the size
    of the item catalogue: the id returned, and the key the new record is
    stored under, is [len(items_map) + 1], whatever [cart_map] holds.  The
    store has no other component an id could come from. *)
Theorem create_ids_count_the_items (s : store) (request : CreateItemRequest.t) :
  let n := dict_len (items_map s) in
  let '(s_cart, (location, created)) := create_cart s in
  let '(s_item, item) := create_item s request in
  CartCreatedResponse.id created = n + 1 /\
  location = ("/cart/" ++ str (n + 1))%string /\
  dict_get (n + 1) (cart_map s_cart) = Some {| Cart.id := n + 1; Cart.item_ids := [] |} /\
  items_map s_cart = items_map s /\
  Item.id item = n + 1 /\
  item = build_item (n + 1) request /\
  dict_get (n + 1) (items_map s_item) = Some item /\
  cart_map s_item = cart_map s.
Proof.
  simpl. repeat split; apply dict_get_set_same.
Qed.

(** C7. [put_item] on a stored id, deleted or not, succeeds and stores
    under that id an item with the request's name and price and
    [deleted = False], touching nothing else; on an unknown id, and only
    then, it raises the 404 of [assert_item_exists]. *)
Theorem put_item_resurrects (s : store) (id : Z) (request : CreateItemRequest.t) :
  match dict_get id (items_map s) with
  | Some old =>
      exists s',
        put_item s id request = Ok (s', build_item id request) /\
        dict_get id (items_map s') =
          Some {| Item.id := id;
                  Item.name := CreateItemRequest.name request;
                  Item.price := CreateItemRequest.price request;
                  Item.deleted := false |} /\
        (forall j, j <> id -> dict_get j (items_map s') = dict_get j (items_map s)) /\
        dict_keys (items_map s') = dict_keys (items_map s) /\
        cart_map s' = cart_map s
  | None =>
      put_item s id request =
      Err (HTTPException NOT_FOUND ("Item with id=" ++ str id ++ " not found")%string)
  end.
Proof.
  unfold put_item, assert_item_exists.
  destruct (dict_get id (items_map s)) as [old|] eqn:H.
  - rewrite (dict_mem_get _ _ _ H). simpl. eexists. split; [reflexivity|]. simpl.
    repeat split.
    + apply dict_get_set_same.
    + intros j Hj. now apply dict_get_set_other.
    + apply dict_keys_set_old. exact (dict_mem_get _ _ _ H).
  - now rewrite (dict_mem_false _ _ H).
Qed.

(** C4. [patch_item] on a stored id.  If the item is deleted the store is
    left as it is, the status is 304 and the body is the item unchanged.
    Otherwise the status stays 200 and the item stored and returned has
    the request's name if one was given and the old name if not, the same
    for the price, and its old id and deleted flag; no other item, no key
    and no cart changes. *)
Theorem patch_item_spec (s : store) (id : Z) (request : UpdateItemRequest.t)
    (item : Item.t) :
  dict_get id (items_map s) = Some item ->
  if Item.deleted item
  then patch_item s id request = Ok (s, (NOT_MODIFIED, item))
  else
    exists s' item',
      patch_item s id request = Ok (s', (OK, item')) /\
      Item.name item' =
        match UpdateItemRequest.name request with
        | Some name => name
        | None => Item.name item
        end /\
      Item.price item' =
        match UpdateItemRequest.price request with
        | Some price => price
        | None => Item.price item
        end /\
      Item.id item' = Item.id item /\
      Item.deleted item' = false /\
      dict_get id (items_map s') = Some item' /\
      (forall j, j <> id -> dict_get j (items_map s') = dict_get j (items_map s)) /\
      dict_keys (items_map s') = dict_keys (items_map s) /\
      cart_map s' = cart_map s.
Proof.
  intros H. unfold patch_item, assert_item_exists, dict_item.
  rewrite (dict_mem_get _ _ _ H), H. simpl.
  destruct (Item.deleted item) eqn:Hd; [reflexivity|].
  do 2 eexists. split; [reflexivity|]. simpl.
  repeat split.
  - now destruct (UpdateItemRequest.name request), (UpdateItemRequest.price request).
  - now destruct (UpdateItemRequest.name request), (UpdateItemRequest.price request).
  - now destruct (UpdateItemRequest.name request), (UpdateItemRequest.price request).
  - now destruct (UpdateItemRequest.name request), (UpdateItemRequest.price request).
  - apply dict_get_set_same.
  - intros j Hj. now apply dict_get_set_other.
  - apply dict_keys_set_old. exact (dict_mem_get _ _ _ H).
Qed.

Lemma patch_item_spec_witness :
  dict_get 2 (items_map patch_demo_store) = Some (Item.mk 2 "banana" 5 true) /\
  patch_item patch_demo_store 2 (UpdateItemRequest.mk None (Some 7%float)) =
  Ok (patch_demo_store, (NOT_MODIFIED, Item.mk 2 "banana" 5 true)).
Proof.
  split; [reflexivity|].
  exact (patch_item_spec patch_demo_store 2 (UpdateItemRequest.mk None (Some 7%float))
           (Item.mk 2 "banana" 5 true) eq_refl).
Defined.

Lemma delete_item_stored s id item :
  dict_get id (items_map s) = Some item ->
  delete_item s id =
  Ok (set_items_map s
        (dict_set id {| Item.id := Item.id item; Item.name := Item.name item;
                        Item.price := Item.price item; Item.deleted := true |}
           (items_map s))).
Proof.
  intros H. unfold delete_item, assert_item_exists, dict_item.
  rewrite (dict_mem_get _ _ _ H), H. reflexivity.
Qed.

(** C6. [get_item] answers 404 exactly when the id is unknown or the item
    stored under it is deleted, and returns the stored item otherwise.
    For an item made by [create_item] in a reachable store, and any run
    of requests after it that does not DELETE it: [get_item] returns the
    item stored under its id, which carries that id and is the item as
    created when the run did not PUT or PATCH it either; [delete_item]
    then succeeds, and after it [get_item] answers 404. *)
Theorem get_item_spec (s : store) (body : CreateItemRequest.t) (rs : list request) :
  reachable s ->
  let s1 := fst (create_item s body) in
  let item := snd (create_item s body) in
  forallb (fun r => negb (deletes_item (Item.id item) r)) rs = true ->
  (forall s0 id,
      is_not_found (get_item s0 id) = true <->
      dict_get id (items_map s0) = None \/
      exists it, dict_get id (items_map s0) = Some it /\ Item.deleted it = true) /\
  (forall s0 id it,
      dict_get id (items_map s0) = Some it -> Item.deleted it = false ->
      get_item s0 id = Ok it) /\
  (exists item',
      get_item (run s1 rs) (Item.id item) = Ok item' /\
      Item.id item' = Item.id item /\
      (forallb (fun r => negb (writes_item (Item.id item) r)) rs = true -> item' = item)) /\
  exists s2,
    delete_item (run s1 rs) (Item.id item) = Ok s2 /\
    is_not_found (get_item s2 (Item.id item)) = true.
Proof.
  intros Hs s1 item Hrs.
  assert (Hget1 : dict_get (Item.id item) (items_map s1) = Some item)
    by apply dict_get_set_same.
  assert (Hinv1 : inv s1) by (apply (inv_handle s (POST_item body)), reachable_inv, Hs).
  destruct (run_keeps_live rs s1 _ _ Hinv1 Hget1 eq_refl Hrs) as (item' & Hget & Hlive).
  split; [|split; [|split]].
  - intros s0 id. destruct (dict_get id (items_map s0)) as [it|] eqn:E.
    + rewrite (get_item_stored _ _ _ E). destruct (Item.deleted it) eqn:D; simpl.
      * split; [eauto | reflexivity].
      * split; [discriminate|]. intros [H|(it' & [= <-] & H)]; congruence.
    + rewrite (get_item_unknown _ _ E). simpl. split; [auto | reflexivity].
  - intros s0 id it E D. now rewrite (get_item_stored _ _ _ E), D.
  - exists item'. split; [|split].
    + now rewrite (get_item_stored _ _ _ Hget), Hlive.
    + apply (items_wf_id (items_map (run s1 rs))); [|assumption].
      apply inv_run. assumption.
    + intros Hw. pose proof (run_keeps_item rs s1 _ _ Hinv1 Hget1 Hw). congruence.
  - eexists. split; [exact (delete_item_stored _ _ _ Hget)|].
    erewrite get_item_stored by (simpl; apply dict_get_set_same). reflexivity.
Qed.

Lemma get_item_spec_witness :
  reachable empty_store /\
  exists item',
    get_item (run (fst (create_item empty_store apple))
                [POST_cart; POST_item banana; DELETE_item 2; PATCH_item 1 (set_price 7)]) 1 =
    Ok item' /\
    Item.id item' = 1.
Proof.
  assert (H : reachable empty_store) by (exists []; reflexivity).
  split; [exact H|].
  destruct (proj1 (proj2 (proj2
    (get_item_spec empty_store apple
       [POST_cart; POST_item banana; DELETE_item 2; PATCH_item 1 (set_price 7)] H eq_refl))))
    as (item' & Hget & Hid & _).
  exists item'. split; assumption.
Defined.

(** [create_item] never lands on an id the catalogue holds: ids of items
    are not reused. *)
Lemma create_item_id_fresh (s : store) (request : CreateItemRequest.t) :
  reachable s -> dict_get (Item.id (snd (create_item s request))) (items_map s) = None.
Proof. intros Hs. apply items_wf_fresh, (reachable_inv s Hs). Qed.

(** * The cart store *)

(** C1, at the run that breaks it.  [create_cart] takes the id from the
    size of the item catalogue, so two carts created with no item created
    in between get the same id and the second replaces the first: after
    [one_cart_run] cart 2 holds item 1, and the next [create_cart] answers
    id 2 again and leaves an empty cart under it. *)
Theorem create_cart_reuses_id :
  let s := run empty_store one_cart_run in
  let '(s', (_, created)) := create_cart s in
  dict_get 2 (cart_map s) = Some {| Cart.id := 2; Cart.item_ids := [1] |} /\
  CartCreatedResponse.id created = 2 /\
  dict_get 2 (cart_map s') = Some {| Cart.id := 2; Cart.item_ids := [] |} /\
  List.length (cart_map s') = 1%nat.
Proof. vm_compute. repeat split. Qed.

(** C9, at the input that breaks it.  The two list endpoints constrain
    [min_price] and [max_price] differently: GET /cart declares them
    [ge=0] and lets zero through, GET /item declares them [gt=0] and
    answers a validation error to zero, in any store. *)
Theorem get_items_rejects_zero_price (s : store) :
  get_items s None None (Some PrimFloat.zero) None None = Err RequestValidationError /\
  get_items s None None None (Some PrimFloat.zero) None = Err RequestValidationError /\
  get_carts empty_store None None (Some PrimFloat.zero) (Some PrimFloat.zero) None None = Ok [] /\
  QueryNone fge0 (Some PrimFloat.zero) = Ok (Some PrimFloat.zero) /\
  QueryNone fgt0 (Some PrimFloat.zero) = Err RequestValidationError.
Proof. repeat split. Qed.

(** ** Building a cart view *)

Lemma Forall2_map_left {A B C : Type} (R : B -> C -> Prop) (g : A -> B) xs ys :
  Forall2 R (map g xs) ys <-> Forall2 (fun x y => R (g x) y) xs ys.
Proof.
  revert ys. induction xs as [|x xs IH]; intros ys; simpl; split; intros H;
    inversion H; subst; constructor; try assumption; now apply IH.
Qed.

Lemma build_cart_item_Ok s id count line :
  build_cart_item s id count = Ok line <->
  exists item,
    dict_get id (items_map s) = Some item /\
    line = {| CartItem.id := id; CartItem.name := Item.name item;
              CartItem.quantity := count;
              CartItem.available := negb (Item.deleted item) |}.
Proof.
  unfold build_cart_item. destruct (dict_get id (items_map s)) as [item|]; split.
  - intros [= <-]. eauto.
  - intros (item' & [= <-] & ->). reflexivity.
  - discriminate.
  - intros (item' & H & _). discriminate.
Qed.

Lemma line_total_Ok s line t :
  line_total s line = Ok t <->
  exists item,
    dict_get (CartItem.id line) (items_map s) = Some item /\
    t = PrimFloat.mul (float_of_int (CartItem.quantity line)) (Item.price item).
Proof.
  unfold line_total, dict_item.
  destruct (dict_get (CartItem.id line) (items_map s)) as [item|]; simpl; split.
  - intros [= <-]. eauto.
  - intros (item' & [= <-] & ->). reflexivity.
  - discriminate.
  - intros (item' & H & _). discriminate.
Qed.

(** What a view that was built holds: the cart's id; one line per distinct
    id of the cart, in order of first occurrence, filled from the item now
    stored under that id; and as price the sum, over the available lines
    only, of quantity times the price now stored. *)
Lemma build_cart_response_Ok s cart v :
  build_cart_response s cart = Ok v ->
  CartResponse.id v = Cart.id cart /\
  Forall2 (fun id line =>
             exists item, dict_get id (items_map s) = Some item /\
                          line = line_of (Cart.item_ids cart) id item)
          (distinct (Cart.item_ids cart)) (CartResponse.items v) /\
  exists totals,
    Forall2 (fun line t =>
               exists item,
                 dict_get (CartItem.id line) (items_map s) = Some item /\
                 t = PrimFloat.mul (float_of_int (CartItem.quantity line)) (Item.price item))
            (filter CartItem.available (CartResponse.items v)) totals /\
    CartResponse.price v = fsum totals.
Proof.
  unfold build_cart_response. intros H.
  apply bind_Ok in H as (items & Hitems & H).
  apply bind_Ok in H as (totals & Htotals & H).
  injection H as <-. simpl. split; [reflexivity|]. split.
  - rewrite Counter_spec in Hitems. unfold tabulate in Hitems.
    apply mapM_Ok_Forall2, Forall2_map_left in Hitems.
    revert Hitems. apply Forall2_impl. intros id line Hline.
    now apply build_cart_item_Ok in Hline.
  - exists totals. split; [|reflexivity].
    apply mapM_Ok_Forall2 in Htotals. revert Htotals.
    apply Forall2_impl. intros line t. apply line_total_Ok.
Qed.

(** A view is built whenever every id of the cart is stored, deleted or
    not. *)
Lemma build_cart_response_total s cart :
  cart_refs_ok (items_map s) cart -> exists v, build_cart_response s cart = Ok v.
Proof.
  intros Hrefs. unfold build_cart_response.
  destruct (mapM_total (fun '(id, count) => build_cart_item s id count)
              (Counter (Cart.item_ids cart))) as [items Hitems].
  { rewrite Counter_spec. unfold tabulate. apply Forall_map, Forall_forall.
    intros id Hid. apply (proj1 (In_distinct _ _)) in Hid.
    unfold cart_refs_ok in Hrefs. rewrite Forall_forall in Hrefs.
    specialize (Hrefs id Hid). unfold dict_mem in Hrefs. unfold build_cart_item.
    destruct (dict_get id (items_map s)); [eauto | discriminate]. }
  rewrite Hitems. simpl.
  destruct (mapM_total (line_total s) (filter CartItem.available items)) as [totals Htotals].
  { apply Forall_forall. intros line Hline. apply filter_In in Hline as [Hline _].
    rewrite Counter_spec in Hitems. unfold tabulate in Hitems.
    apply mapM_Ok_Forall2, Forall2_map_left in Hitems.
    clear -Hitems Hline. induction Hitems as [|id l ids ls H _ IH]; [destruct Hline|].
    destruct Hline as [<-|Hline]; [|auto].
    apply build_cart_item_Ok in H as (item & Hget & ->). simpl.
    unfold line_total, dict_item. simpl. rewrite Hget. simpl. eauto. }
  rewrite Htotals. simpl. eauto.
Qed.

Lemma get_cart_stored s id cart :
  dict_get id (cart_map s) = Some cart -> get_cart s id = build_cart_response s cart.
Proof.
  intros H. unfold get_cart, assert_cart_exists, dict_item.
  now rewrite (dict_mem_get _ _ _ H), H.
Qed.

Lemma get_cart_unknown s id :
  dict_get id (cart_map s) = None ->
  get_cart s id = Err (HTTPException NOT_FOUND ("Cart with id=" ++ str id ++ " not found")%string).
Proof.
  intros H. unfold get_cart, assert_cart_exists. now rewrite (dict_mem_false _ _ H).
Qed.

Lemma Query_none_or {A : Type} (d : A) (ok : A -> bool) (given : option A) :
  Query d ok given =
  if none_or ok given then Ok (or_default d given) else Err RequestValidationError.
Proof. destruct given as [v|]; simpl; [destruct (ok v)|]; reflexivity. Qed.

Lemma QueryNone_none_or {A : Type} (ok : A -> bool) (given : option A) :
  QueryNone ok given = if none_or ok given then Ok given else Err RequestValidationError.
Proof. destruct given as [v|]; simpl; [destruct (ok v)|]; reflexivity. Qed.

(** C2, as the code has it.  In a store where every id held by a cart is
    a key of the item catalogue, whether the item under it is deleted or
    not, both cart views are built: [get_cart] answers a view for every
    stored cart, and [get_carts] answers a page for every query the
    boundary lets through and the validation error for every other. *)
Theorem cart_views_total (s : store) :
  refs_ok s ->
  (forall id, dict_mem id (cart_map s) = true -> exists v, get_cart s id = Ok v) /\
  (forall offset limit min_price max_price min_quantity max_quantity,
      if carts_query_ok offset limit min_price max_price min_quantity max_quantity
      then exists page,
          get_carts s offset limit min_price max_price min_quantity max_quantity = Ok page
      else get_carts s offset limit min_price max_price min_quantity max_quantity =
           Err RequestValidationError).
Proof.
  intros Hrefs. split.
  - intros id Hmem. unfold dict_mem in Hmem.
    destruct (dict_get id (cart_map s)) as [cart|] eqn:E; [|discriminate].
    rewrite (get_cart_stored _ _ _ E).
    apply build_cart_response_total. exact (refs_ok_get _ _ _ Hrefs E).
  - intros offset limit min_price max_price min_quantity max_quantity.
    unfold get_carts, carts_query_ok.
    rewrite !Query_none_or, !QueryNone_none_or.
    destruct (none_or ge0 offset); simpl; [|reflexivity].
    destruct (none_or gt0 limit); simpl; [|reflexivity].
    destruct (none_or fge0 min_price); simpl; [|reflexivity].
    destruct (none_or fge0 max_price); simpl; [|reflexivity].
    destruct (none_or ge0 min_quantity); simpl; [|reflexivity].
    destruct (none_or ge0 max_quantity); simpl; [|reflexivity].
    destruct (mapM_total (build_cart_response s) (dict_values (cart_map s))) as [carts Hc].
    { unfold dict_values. apply Forall_map. revert Hrefs. unfold refs_ok.
      apply Forall_impl. intros kc. apply build_cart_response_total. }
    rewrite Hc. simpl. eauto.
Qed.

Lemma cart_views_total_witness :
  refs_ok deleted_line_store /\
  exists v, get_cart deleted_line_store 3 = Ok v.
Proof.
  assert (H : refs_ok deleted_line_store) by (repeat constructor).
  split; [exact H|].
  exact (proj1 (cart_views_total deleted_line_store H) 3 eq_refl).
Defined.

(** C2 as stated fails: a cart naming an id the catalogue does not hold
    makes [build_cart_item] read [name] off [None], and both views raise. *)
Lemma cart_view_of_absent_item_raises :
  dict_get 1 (cart_map dangling_store) = Some (Cart.mk 1 [7]) /\
  dict_mem 7 (items_map dangling_store) = false /\
  get_cart dangling_store 1 = Err AttributeError /\
  get_carts dangling_store None None None None None None = Err AttributeError.
Proof. repeat split. Qed.

(** A PATCH that answered 200 with a price in its body has stored an item
    with that price under the id, and written nothing else. *)
Lemma patch_item_price_Ok s id p s' item' :
  patch_item s id (set_price p) = Ok (s', (OK, item')) ->
  Item.price item' = p /\
  dict_get id (items_map s') = Some item' /\
  (forall j, j <> id -> dict_get j (items_map s') = dict_get j (items_map s)) /\
  cart_map s' = cart_map s.
Proof.
  unfold patch_item. intros H.
  apply bind_Ok in H as (_ & _ & H). apply bind_Ok in H as (item & _ & H).
  destruct (Item.deleted item); [discriminate|].
  simpl in H. injection H as <- <-. simpl. repeat split.
  - apply dict_get_set_same.
  - intros j Hj. now apply dict_get_set_other.
Qed.

(** C3. The view [get_cart] answers for cart [id] has one line per
    distinct item id of the cart, in order of first occurrence, with the
    number of occurrences as quantity and [available] false exactly for a
    deleted item; its price is the sum, over the available lines only, of
    quantity times the price the item has in the store at the time of the
    call.  Nothing is kept between calls: after a PATCH that set the price
    of an item to [p], the next view of the same cart prices the available
    lines of that item at [p] and every other line as before. *)
Theorem get_cart_price_spec (s : store) (id : Z) (v : CartResponse.t) :
  get_cart s id = Ok v ->
  exists cart totals,
    dict_get id (cart_map s) = Some cart /\
    CartResponse.id v = Cart.id cart /\
    Forall2 (fun item_id line =>
               exists item, dict_get item_id (items_map s) = Some item /\
                            line = line_of (Cart.item_ids cart) item_id item)
            (distinct (Cart.item_ids cart)) (CartResponse.items v) /\
    Forall2 (fun line t =>
               exists item,
                 dict_get (CartItem.id line) (items_map s) = Some item /\
                 t = PrimFloat.mul (float_of_int (CartItem.quantity line)) (Item.price item))
            (filter CartItem.available (CartResponse.items v)) totals /\
    CartResponse.price v = fsum totals /\
    forall item_id p s' item' v',
      patch_item s item_id (set_price p) = Ok (s', (OK, item')) ->
      get_cart s' id = Ok v' ->
      exists totals',
        Forall2 (fun line t =>
                   if CartItem.id line =? item_id
                   then t = PrimFloat.mul (float_of_int (CartItem.quantity line)) p
                   else exists item,
                       dict_get (CartItem.id line) (items_map s) = Some item /\
                       t = PrimFloat.mul (float_of_int (CartItem.quantity line))
                             (Item.price item))
                (filter CartItem.available (CartResponse.items v')) totals' /\
        CartResponse.price v' = fsum totals'.
Proof.
  intros H. destruct (dict_get id (cart_map s)) as [cart|] eqn:E.
  2:{ rewrite (get_cart_unknown _ _ E) in H. discriminate. }
  rewrite (get_cart_stored _ _ _ E) in H.
  apply build_cart_response_Ok in H as (Hid & Hlines & totals & Htotals & Hprice).
  exists cart, totals. do 5 (split; [first [assumption | reflexivity]|]).
  intros item_id p s' item' v' Hpatch Hget.
  apply patch_item_price_Ok in Hpatch as (Hp & Hnew & Hold & Hcarts).
  rewrite (get_cart_stored s' id cart) in Hget by (rewrite Hcarts; exact E).
  apply build_cart_response_Ok in Hget as (_ & _ & totals' & Htotals' & Hprice').
  exists totals'. split; [|assumption].
  revert Htotals'. apply Forall2_impl. intros line t (item & Hitem & ->).
  destruct (Z.eqb_spec (CartItem.id line) item_id) as [Heq|Hne].
  - rewrite Heq, Hnew in Hitem. injection Hitem as <-. now rewrite Hp.
  - rewrite (Hold _ Hne) in Hitem. eauto.
Qed.

Lemma get_cart_price_spec_witness :
  get_cart deleted_line_store 3 =
    Ok {| CartResponse.id := 3;
          CartResponse.items := [CartItem.mk 1 "apple" 2 true; CartItem.mk 2 "banana" 1 false];
          CartResponse.price := 20 |} /\
  exists cart totals,
    dict_get 3 (cart_map deleted_line_store) = Some cart /\
    Forall2 (fun line t =>
               exists item,
                 dict_get (CartItem.id line) (items_map deleted_line_store) = Some item /\
                 t = PrimFloat.mul (float_of_int (CartItem.quantity line)) (Item.price item))
            [CartItem.mk 1 "apple" 2 true] totals /\
    20%float = fsum totals.
Proof.
  split; [reflexivity|].
  destruct (get_cart_price_spec deleted_line_store 3 _ eq_refl)
    as (cart & totals & H1 & _ & _ & H4 & H5 & _).
  exists cart, totals. repeat split; assumption.
Defined.

(** The scenario of the spec, run on the handlers: two apples at 10.0
    and a banana at 5.0 cost 25.0; with the banana deleted its line stays,
    unavailable, and the price is 20.0; a later PATCH of the apple's
    price to 7.0 shows in the next view, 14.0. *)
Example cart_price_scenario :
  let s := run empty_store scenario_run in
  let s_deleted := handle s (DELETE_item 2) in
  let s_patched := handle s_deleted (PATCH_item 1 (set_price 7)) in
  get_cart s 3 =
    Ok {| CartResponse.id := 3;
          CartResponse.items := [CartItem.mk 1 "apple" 2 true; CartItem.mk 2 "banana" 1 true];
          CartResponse.price := 25 |} /\
  get_cart s_deleted 3 =
    Ok {| CartResponse.id := 3;
          CartResponse.items := [CartItem.mk 1 "apple" 2 true; CartItem.mk 2 "banana" 1 false];
          CartResponse.price := 20 |} /\
  get_cart s_patched 3 =
    Ok {| CartResponse.id := 3;
          CartResponse.items := [CartItem.mk 1 "apple" 2 true; CartItem.mk 2 "banana" 1 false];
          CartResponse.price := 14 |} /\
  patch_item s_deleted 2 (set_price 7) =
    Ok (s_deleted, (NOT_MODIFIED, Item.mk 2 "banana" 5 true)).
Proof. vm_compute. repeat split. Qed.

(** No request takes a key out of the item catalogue. *)
Lemma handle_keeps_keys s r id :
  dict_mem id (items_map s) = true -> dict_mem id (items_map (handle s r)) = true.
Proof.
  intros H.
  destruct r as [|body|?|?|? ? ? ? ? ?|cid iid|? ? ? ? ?|id' body|id' body|id'];
    simpl; try assumption.
  - rewrite dict_mem_set, H. apply orb_true_r.
  - unfold add_item_to_cart.
    destruct (assert_cart_exists s cid); simpl; [|assumption].
    destruct (assert_item_exists s iid); simpl; [|assumption].
    destruct (dict_item cid (cart_map s)); simpl; assumption.
  - unfold put_item.
    destruct (assert_item_exists s id'); simpl; [|assumption].
    rewrite dict_mem_set, H. apply orb_true_r.
  - unfold patch_item.
    destruct (assert_item_exists s id'); simpl; [|assumption].
    destruct (dict_item id' (items_map s)) as [it|]; simpl; [|assumption].
    destruct (Item.deleted it); simpl; [assumption|].
    rewrite dict_mem_set, H. apply orb_true_r.
  - unfold delete_item.
    destruct (assert_item_exists s id'); simpl; [|assumption].
    destruct (dict_item id' (items_map s)) as [it|]; simpl; [|assumption].
    rewrite dict_mem_set, H. apply orb_true_r.
Qed.

(** C10. In every store a run of requests reaches from the empty one,
    each id held by a stored cart is a key of the item catalogue:
    [add_item_to_cart] succeeds only for an id stored at the time, and no
    request, [delete_item] included, takes a key out of the catalogue.
    So [get_cart] either answers the 404 of an unknown cart or a view;
    the lookup in [build_cart_item] never misses. *)
Theorem cart_ids_are_catalogue_keys (s : store) :
  reachable s ->
  (forall cart_id cart item_id,
      dict_get cart_id (cart_map s) = Some cart ->
      In item_id (Cart.item_ids cart) ->
      dict_mem item_id (items_map s) = true) /\
  (forall cart_id item_id s',
      add_item_to_cart s cart_id item_id = Ok s' ->
      dict_mem item_id (items_map s) = true) /\
  (forall r item_id,
      dict_mem item_id (items_map s) = true ->
      dict_mem item_id (items_map (handle s r)) = true) /\
  (forall item_id s',
      delete_item s item_id = Ok s' ->
      dict_keys (items_map s') = dict_keys (items_map s)) /\
  (forall cart_id,
      match dict_get cart_id (cart_map s) with
      | Some _ => exists v, get_cart s cart_id = Ok v
      | None =>
          get_cart s cart_id =
          Err (HTTPException NOT_FOUND ("Cart with id=" ++ str cart_id ++ " not found")%string)
      end).
Proof.
  intros Hs. destruct (reachable_inv s Hs) as [_ Hrefs].
  split; [|split; [|split; [|split]]].
  - intros cart_id cart item_id Hc Hin.
    pose proof (refs_ok_get _ _ _ Hrefs Hc) as H.
    unfold cart_refs_ok in H. rewrite Forall_forall in H. auto.
  - intros cart_id item_id s' H. unfold add_item_to_cart in H.
    apply bind_Ok in H as (_ & _ & H). apply bind_Ok in H as ([] & H & _).
    now apply assert_item_exists_Ok.
  - intros r item_id. apply handle_keeps_keys.
  - intros item_id s' H. unfold delete_item in H.
    apply bind_Ok in H as ([] & Hmem & H). apply bind_Ok in H as (item & _ & H).
    injection H as <-. simpl. apply dict_keys_set_old.
    now apply assert_item_exists_Ok.
  - intros cart_id. destruct (dict_get cart_id (cart_map s)) as [cart|] eqn:E.
    + rewrite (get_cart_stored _ _ _ E). apply build_cart_response_total.
      exact (refs_ok_get _ _ _ Hrefs E).
    + now apply get_cart_unknown.
Qed.

Lemma cart_ids_are_catalogue_keys_witness :
  reachable (run empty_store (scenario_run ++ [DELETE_item 2])) /\
  dict_mem 2 (items_map (run empty_store (scenario_run ++ [DELETE_item 2]))) = true.
Proof.
  assert (H : reachable (run empty_store (scenario_run ++ [DELETE_item 2])))
    by (eexists; reflexivity).
  split; [exact H|].
  refine (proj1 (cart_ids_are_catalogue_keys _ H) 3 (Cart.mk 3 [1; 1; 2]) 2 eq_refl _).
  simpl. tauto.
Defined.

(** ** Listing items *)

Lemma items_wf_values m :
  items_wf m -> map Item.id (dict_values m) = ids_upto (List.length m).
Proof.
  intros [Hk Hid]. rewrite <- Hk. unfold dict_values, dict_keys.
  rewrite map_map. apply map_ext_Forall. exact Hid.
Qed.

(** C8. For a query the boundary lets through, [get_items] answers the
    page cut out of the stored items that lie in the price range, both
    bounds included, and pass the deletion filter, kept in the order they
    are stored: the page skips [offset] of them and takes the next
    [limit], so it is a run of consecutive filtered items, no longer than
    [limit]; it is empty when [offset] reaches the filtered count, and it
    is the whole filtered list for [offset = 0] and [limit] the count.
    In a reachable store the stored order is the creation order, ids
    [1..n] ascending. *)
Theorem get_items_spec (s : store) (offset limit : option Z)
    (min_price max_price : option float) (show_deleted : option bool) :
  items_query_ok offset limit min_price max_price = true ->
  let o := or_default 0 offset in
  let l := or_default 10 limit in
  let filtered :=
    listed min_price max_price (or_default true show_deleted) (dict_values (items_map s)) in
  let count := Z.of_nat (List.length filtered) in
  exists page,
    get_items s offset limit min_price max_price show_deleted = Ok page /\
    page = firstn (Z.to_nat l) (skipn (Z.to_nat o) filtered) /\
    filtered = firstn (Z.to_nat o) filtered ++ page ++
               skipn (Z.to_nat l) (skipn (Z.to_nat o) filtered) /\
    Z.of_nat (List.length page) <= l /\
    (count <= o -> page = []) /\
    (o = 0 -> l = count -> page = filtered) /\
    (reachable s ->
     map Item.id (dict_values (items_map s)) = ids_upto (List.length (items_map s))).
Proof.
  intros Hq o l filtered count. unfold items_query_ok in Hq.
  apply andb_true_iff in Hq as [Hq Hmax]. apply andb_true_iff in Hq as [Hq Hmin].
  apply andb_true_iff in Hq as [Ho Hl].
  assert (Ho' : 0 <= o).
  { subst o. destruct offset as [v|]; simpl in *; [apply Z.leb_le in Ho|]; lia. }
  assert (Hl' : 0 < l).
  { subst l. destruct limit as [v|]; simpl in *; [apply Z.ltb_lt in Hl|]; lia. }
  exists (firstn (Z.to_nat l) (skipn (Z.to_nat o) filtered)).
  split; [|split; [|split; [|split; [|split; [|split]]]]].
  - unfold get_items. rewrite !Query_none_or, !QueryNone_none_or, Ho, Hl, Hmin, Hmax.
    assert (Hsd : none_or unconstrained show_deleted = true) by (now destruct show_deleted).
    rewrite Hsd. cbv [bind]. fold o l.
    rewrite apply_offset_limit_spec by lia. reflexivity.
  - reflexivity.
  - now rewrite !firstn_skipn.
  - pose proof (firstn_le_length (Z.to_nat l) (skipn (Z.to_nat o) filtered)). lia.
  - intros Hc. rewrite skipn_all2 by (subst count; lia). apply firstn_nil.
  - intros -> ->. simpl. subst count. rewrite Nat2Z.id. apply firstn_all.
  - intros Hs. apply items_wf_values, (reachable_inv s Hs).
Qed.

Lemma get_items_spec_witness :
  items_query_ok (Some 0) (Some 2) (Some 5%float) (Some 15%float) = true /\
  get_items three_items (Some 0) (Some 2) (Some 5%float) (Some 15%float) (Some false) =
  Ok [Item.mk 1 "banana" 5 false; Item.mk 3 "cherry" 15 false].
Proof.
  split; [reflexivity|].
  destruct (get_items_spec three_items (Some 0) (Some 2) (Some 5%float) (Some 15%float)
              (Some false) eq_refl) as (page & Hget & Hpage & _).
  rewrite Hget, Hpage. reflexivity.
Defined.

(** Pages of [three_items]: the bounds 5.0 and 10.0 take in the items
    priced exactly 5.0 and 10.0; an offset at the count answers nothing;
    a limit past the end stops at the end. *)
Example get_items_pages :
  get_items three_items None None (Some 5%float) (Some 10%float) None =
    Ok [Item.mk 1 "banana" 5 false; Item.mk 2 "apple" 10 true] /\
  get_items three_items (Some 3) (Some 1) None None None = Ok [] /\
  get_items three_items (Some 2) (Some 5) None None None =
    Ok [Item.mk 3 "cherry" 15 false] /\
  get_items three_items (Some 0) (Some 0) None None None = Err RequestValidationError.
Proof. vm_compute. repeat split. Qed.

(** * Beyond the claims: how the handlers compose *)

(** ** Writes to one key *)

Lemma dict_set_set {V : Type} (k : Z) (v w : V) (d : dict V) :
  dict_set k v (dict_set k w d) = dict_set k v d.
Proof.
  induction d as [|[k' v'] d IH]; simpl.
  - now rewrite Z.eqb_refl.
  - destruct (k' =? k) eqn:E; simpl.
    + now rewrite Z.eqb_refl.
    + now rewrite E, IH.
Qed.

Lemma dict_set_stored {V : Type} (k : Z) (v : V) (d : dict V) :
  dict_get k d = Some v -> dict_set k v d = d.
Proof.
  induction d as [|[k' v'] d IH]; simpl; [discriminate|].
  destruct (Z.eqb_spec k' k) as [->|Hne].
  - now intros [= ->].
  - intros H. now rewrite IH.
Qed.

Lemma set_items_map_same s : set_items_map s (items_map s) = s.
Proof. now destruct s. Qed.

Lemma put_item_stored s id body :
  dict_mem id (items_map s) = true ->
  put_item s id body =
  Ok (set_items_map s (dict_set id (build_item id body) (items_map s)), build_item id body).
Proof. intros H. unfold put_item, assert_item_exists. now rewrite H. Qed.

Lemma delete_item_Ok s id s1 :
  delete_item s id = Ok s1 ->
  exists item,
    dict_get id (items_map s) = Some item /\
    s1 = set_items_map s (dict_set id (mark_deleted item) (items_map s)).
Proof.
  unfold delete_item. intros H.
  apply bind_Ok in H as (_ & _ & H). apply bind_Ok in H as (item & Hitem & H).
  injection H as <-. exists item. split; [|reflexivity].
  unfold dict_item in Hitem. destruct (dict_get id (items_map s)); congruence.
Qed.

(** X1. DELETE /item/{id} twice is DELETE once: the first call that succeeds
    flags the item and touches nothing else, a second call succeeds again
    and leaves the store exactly as the first left it; the item answers
    404 to [get_item] from the first call on. *)
Theorem delete_item_idempotent (s s1 : store) (id : Z) :
  delete_item s id = Ok s1 ->
  delete_item s1 id = Ok s1 /\
  is_not_found (get_item s1 id) = true /\
  (exists item,
      dict_get id (items_map s) = Some item /\
      dict_get id (items_map s1) = Some (mark_deleted item)) /\
  (forall j, j <> id -> dict_get j (items_map s1) = dict_get j (items_map s)) /\
  dict_keys (items_map s1) = dict_keys (items_map s) /\
  cart_map s1 = cart_map s.
Proof.
  intros H. apply delete_item_Ok in H as (item & Hitem & ->).
  assert (Hnew : dict_get id (dict_set id (mark_deleted item) (items_map s)) =
                 Some (mark_deleted item)) by apply dict_get_set_same.
  split; [|split; [|split; [|split; [|split]]]].
  - rewrite (delete_item_stored _ _ (mark_deleted item)) by exact Hnew.
    simpl. now rewrite dict_set_set.
  - now rewrite (get_item_stored _ _ (mark_deleted item)) by exact Hnew.
  - eauto.
  - intros j Hj. simpl. now apply dict_get_set_other.
  - simpl. apply dict_keys_set_old. exact (dict_mem_get _ _ _ Hitem).
  - reflexivity.
Qed.

Lemma delete_item_idempotent_witness :
  delete_item three_items 1 = Ok (handle three_items (DELETE_item 1)) /\
  delete_item (handle three_items (DELETE_item 1)) 1 =
  Ok (handle three_items (DELETE_item 1)).
Proof.
  split; [reflexivity|].
  exact (proj1 (delete_item_idempotent three_items _ 1 eq_refl)).
Defined.

(** X2. POST /cart is idempotent on the store.  The id comes from the item
    catalogue, which POST /cart does not change, so any number of
    POST /cart in a row leaves what one leaves: a single empty cart under
    [len(items_map) + 1], in place of whatever cart was there. *)
Theorem create_cart_repeated (s : store) (n : nat) :
  run s (repeat POST_cart (S n)) = fst (create_cart s) /\
  dict_get (dict_len (items_map s) + 1) (cart_map (run s (repeat POST_cart (S n)))) =
    Some {| Cart.id := dict_len (items_map s) + 1; Cart.item_ids := [] |} /\
  (List.length (cart_map (run s (repeat POST_cart (S n)))) <= S (List.length (cart_map s)))%nat.
Proof.
  assert (Hrun : run s (repeat POST_cart (S n)) = fst (create_cart s)).
  { induction n as [|n IH]; [reflexivity|].
    change (repeat POST_cart (S (S n))) with (POST_cart :: repeat POST_cart (S n)).
    rewrite (repeat_cons (S n)). unfold run in *. rewrite fold_left_app, IH.
    simpl. unfold set_cart_map. simpl. now rewrite dict_set_set. }
  rewrite Hrun. simpl. split; [reflexivity|]. split; [apply dict_get_set_same|].
  destruct (dict_get (dict_len (items_map s) + 1) (cart_map s)) as [c|] eqn:E.
  - rewrite dict_set_length_old by exact (dict_mem_get _ _ _ E). lia.
  - rewrite dict_set_new by assumption. rewrite length_app. simpl. lia.
Qed.

Lemma put_item_after_set s id item body :
  dict_mem id (items_map s) = true ->
  put_item (set_items_map s (dict_set id item (items_map s))) id body = put_item s id body.
Proof.
  intros Hm. rewrite (put_item_stored s) by assumption.
  rewrite put_item_stored by (simpl; now rewrite dict_mem_set, Z.eqb_refl).
  unfold set_items_map. simpl. now rewrite dict_set_set.
Qed.

(** X3. PUT /item/{id} overwrites what earlier writes to that item did: after
    any request that writes item [id], whether it was a PUT, a PATCH or a
    DELETE and whether it succeeded or not, a PUT answers and stores what
    it would have without that request. *)
Theorem put_item_last_write_wins (s : store) (r : request) (id : Z)
    (body : CreateItemRequest.t) :
  writes_item id r = true ->
  put_item (handle s r) id body = put_item s id body.
Proof.
  intros Hw.
  destruct r as [|?|?|?|? ? ? ? ? ?|? ?|? ? ? ? ?|id' b|id' b|id'];
    simpl in Hw; try discriminate; apply Z.eqb_eq in Hw; subst id'; simpl.
  - unfold put_item at 2, assert_item_exists.
    destruct (dict_mem id (items_map s)) eqn:Hm; simpl; [|reflexivity].
    now apply put_item_after_set.
  - unfold patch_item, assert_item_exists, dict_item.
    destruct (dict_mem id (items_map s)) eqn:Hm; simpl; [|reflexivity].
    destruct (dict_get id (items_map s)) as [it|]; simpl; [|reflexivity].
    destruct (Item.deleted it); [reflexivity|].
    now apply put_item_after_set.
  - unfold delete_item, assert_item_exists, dict_item.
    destruct (dict_mem id (items_map s)) eqn:Hm; simpl; [|reflexivity].
    destruct (dict_get id (items_map s)) as [it|]; simpl; [|reflexivity].
    now apply put_item_after_set.
Qed.

Lemma put_item_last_write_wins_witness :
  writes_item 2 (DELETE_item 2) = true /\
  put_item (handle three_items (DELETE_item 2)) 2 banana = put_item three_items 2 banana.
Proof.
  split; [reflexivity|].
  exact (put_item_last_write_wins three_items (DELETE_item 2) 2 banana eq_refl).
Defined.

(** X4. PATCH /item/{id} with no field set, on a live item, answers 200 with
    the item and leaves the store exactly as it was. *)
Theorem patch_item_empty_body (s : store) (id : Z) (item : Item.t) :
  dict_get id (items_map s) = Some item ->
  Item.deleted item = false ->
  patch_item s id empty_patch = Ok (s, (OK, item)).
Proof.
  intros H Hlive. unfold patch_item, assert_item_exists, dict_item.
  rewrite (dict_mem_get _ _ _ H), H. simpl. rewrite Hlive. simpl.
  now rewrite (dict_set_stored _ _ _ H), set_items_map_same.
Qed.

Lemma patch_item_empty_body_witness :
  dict_get 1 (items_map three_items) = Some (Item.mk 1 "banana" 5 false) /\
  patch_item three_items 1 empty_patch = Ok (three_items, (OK, Item.mk 1 "banana" 5 false)).
Proof.
  split; [reflexivity|].
  exact (patch_item_empty_body three_items 1 _ eq_refl eq_refl).
Defined.

(** X5. What a write answers is what the next GET /item/{id} answers: the body
    of a successful PUT, and the body of a PATCH that answered 200; after
    a PATCH that answered 304 the item is still the deleted one, and GET
    answers 404. *)
Theorem get_item_after_write (s : store) (id : Z) :
  (forall body s' item,
      put_item s id body = Ok (s', item) -> get_item s' id = Ok item) /\
  (forall body s' status item,
      patch_item s id body = Ok (s', (status, item)) ->
      match status with
      | OK => get_item s' id = Ok item
      | _ => status = NOT_MODIFIED /\ s' = s /\ is_not_found (get_item s' id) = true
      end).
Proof.
  split.
  - intros body s' item H. unfold put_item in H. apply bind_Ok in H as (_ & _ & H).
    injection H as <- <-.
    now rewrite (get_item_stored _ _ (build_item id body)) by (simpl; apply dict_get_set_same).
  - intros body s' status item H. unfold patch_item in H.
    apply bind_Ok in H as (_ & _ & H). apply bind_Ok in H as (old & Hold & H).
    unfold dict_item in Hold.
    destruct (dict_get id (items_map s)) as [old'|] eqn:E; [|discriminate].
    injection Hold as ->.
    destruct (Item.deleted old) eqn:D.
    + injection H as <- <- <-. repeat split.
      now rewrite (get_item_stored _ _ _ E), D.
    + injection H as <- <- <-.
      erewrite get_item_stored by (simpl; apply dict_get_set_same).
      destruct (UpdateItemRequest.name body), (UpdateItemRequest.price body);
        simpl; rewrite ?D; reflexivity.
Qed.

(** ** Adding to a cart *)

(** X6. POST /cart/{cart_id}/add/{item_id}.  The cart is looked up first: an
    unknown cart answers the cart's 404 whatever the item id; a stored
    cart with an unknown item answers the item's 404.  Otherwise, whether
    the item is deleted or not, the id goes to the end of that cart's
    [item_ids], and no other cart, no key and no item changes. *)
Theorem add_item_to_cart_spec (s : store) (cart_id item_id : Z) :
  match dict_get cart_id (cart_map s), dict_get item_id (items_map s) with
  | None, _ => add_item_to_cart s cart_id item_id = Err (cart_not_found cart_id)
  | Some _, None => add_item_to_cart s cart_id item_id = Err (item_not_found item_id)
  | Some cart, Some _ =>
      exists s',
        add_item_to_cart s cart_id item_id = Ok s' /\
        dict_get cart_id (cart_map s') =
          Some {| Cart.id := Cart.id cart;
                  Cart.item_ids := Cart.item_ids cart ++ [item_id] |} /\
        (forall j, j <> cart_id -> dict_get j (cart_map s') = dict_get j (cart_map s)) /\
        dict_keys (cart_map s') = dict_keys (cart_map s) /\
        items_map s' = items_map s
  end.
Proof.
  unfold add_item_to_cart, assert_cart_exists, assert_item_exists, dict_item, dict_mem.
  destruct (dict_get cart_id (cart_map s)) as [cart|] eqn:Ec; simpl; [|reflexivity].
  destruct (dict_get item_id (items_map s)) as [item|] eqn:Ei; simpl; [|reflexivity].
  eexists. split; [reflexivity|]. simpl. repeat split.
  - apply dict_get_set_same.
  - intros j Hj. now apply dict_get_set_other.
  - apply dict_keys_set_old. exact (dict_mem_get _ _ _ Ec).
Qed.

(** ** An unknown item id *)

(** X7. Every handler that takes an item id answers the same 404 to an id the
    catalogue does not hold: GET, PUT, PATCH and DELETE of the item, and
    the add to a stored cart; and none of these requests changes the
    store. *)
Theorem unknown_item_is_404 (s : store) (id : Z) :
  dict_get id (items_map s) = None ->
  get_item s id = Err (item_not_found id) /\
  (forall body, put_item s id body = Err (item_not_found id)) /\
  (forall body, patch_item s id body = Err (item_not_found id)) /\
  delete_item s id = Err (item_not_found id) /\
  (forall cart_id,
      dict_mem cart_id (cart_map s) = true ->
      add_item_to_cart s cart_id id = Err (item_not_found id)) /\
  (forall r, writes_item id r = true -> handle s r = s) /\
  (forall cart_id, handle s (POST_cart_add cart_id id) = s).
Proof.
  intros H. pose proof (dict_mem_false _ _ H) as Hm.
  split; [now apply get_item_unknown|].
  split; [intros body; unfold put_item, assert_item_exists; now rewrite Hm|].
  split; [intros body; unfold patch_item, assert_item_exists; now rewrite Hm|].
  split; [unfold delete_item, assert_item_exists; now rewrite Hm|].
  split; [|split].
  - intros cart_id Hc. unfold add_item_to_cart, assert_cart_exists, assert_item_exists.
    now rewrite Hc, Hm.
  - intros r Hw.
    destruct r as [|?|?|?|? ? ? ? ? ?|? ?|? ? ? ? ?|id' b|id' b|id'];
      simpl in Hw; try discriminate; apply Z.eqb_eq in Hw; subst id'; simpl.
    + unfold put_item, assert_item_exists. now rewrite Hm.
    + unfold patch_item, assert_item_exists. now rewrite Hm.
    + unfold delete_item, assert_item_exists. now rewrite Hm.
  - intros cart_id. simpl. unfold add_item_to_cart, assert_cart_exists, assert_item_exists.
    rewrite Hm. destruct (dict_mem cart_id (cart_map s)); reflexivity.
Qed.

Lemma unknown_item_is_404_witness :
  dict_get 9 (items_map three_items) = None /\
  delete_item three_items 9 = Err (item_not_found 9).
Proof.
  split; [reflexivity|].
  exact (proj1 (proj2 (proj2 (proj2 (unknown_item_is_404 three_items 9 eq_refl))))).
Defined.

(** ** Pages *)

Lemma firstn_plus {A : Type} (a b : nat) (l : list A) :
  firstn a l ++ firstn b (skipn a l) = firstn (a + b) l.
Proof.
  revert l. induction a as [|a IH]; intros l; simpl; [reflexivity|].
  destruct l as [|x l]; simpl; [now rewrite firstn_nil|]. now rewrite IH.
Qed.

(** X8. Consecutive pages tile the data: the page of [limit1] elements at
    [offset] followed by the page of [limit2] elements at
    [offset + limit1] is the page of [limit1 + limit2] elements at
    [offset].  Nothing is listed twice and nothing is skipped between two
    pages. *)
Theorem apply_offset_limit_tiles {A : Type} (data : list A) (offset limit1 limit2 : Z) :
  0 <= offset -> 0 <= limit1 -> 0 <= limit2 ->
  apply_offset_limit data offset limit1 ++ apply_offset_limit data (offset + limit1) limit2 =
  apply_offset_limit data offset (limit1 + limit2).
Proof.
  intros Ho H1 H2. rewrite !apply_offset_limit_spec by lia.
  rewrite !Z2Nat.inj_add by lia.
  rewrite (Nat.add_comm (Z.to_nat offset)), <- skipn_skipn.
  apply firstn_plus.
Qed.

Lemma apply_offset_limit_tiles_witness :
  apply_offset_limit [1; 2; 3; 4; 5] 1 2 ++ apply_offset_limit [1; 2; 3; 4; 5] (1 + 2) 7 =
  apply_offset_limit [1; 2; 3; 4; 5] 1 (2 + 7).
Proof.
  apply (apply_offset_limit_tiles [1; 2; 3; 4; 5] 1 2 7); lia.
Defined.

(** ** Counting items and carts *)

Lemma dict_set_length_ge {V : Type} (k : Z) (v : V) (d : dict V) :
  (List.length d <= List.length (dict_set k v d))%nat.
Proof.
  induction d as [|[k' v'] d IH]; simpl; [lia|].
  destruct (k' =? k); simpl; lia.
Qed.

Lemma dict_keys_set_cases {V : Type} (k : Z) (v : V) (d : dict V) :
  dict_keys (dict_set k v d) =
  if dict_mem k d then dict_keys d else dict_keys d ++ [k].
Proof.
  destruct (dict_mem k d) eqn:E.
  - now apply dict_keys_set_old.
  - unfold dict_mem in E. destruct (dict_get k d) eqn:G; [discriminate|].
    rewrite dict_set_new by assumption. unfold dict_keys. now rewrite map_app.
Qed.

Lemma NoDup_keys_set {V : Type} (k : Z) (v : V) (d : dict V) :
  NoDup (dict_keys d) -> NoDup (dict_keys (dict_set k v d)).
Proof.
  intros H. rewrite dict_keys_set_cases. destruct (dict_mem k d) eqn:E; [assumption|].
  apply NoDup_app; [assumption | repeat constructor; intros [] | ].
  intros x Hx [<-|[]]. apply dict_mem_keys in Hx. congruence.
Qed.

Lemma NoDup_keys_get {V : Type} (k : Z) (v : V) (d : dict V) :
  NoDup (dict_keys d) -> In (k, v) d -> dict_get k d = Some v.
Proof.
  induction d as [|[k' v'] d IH]; simpl; [tauto|].
  intros Hnd [[= -> ->]|Hin].
  - now rewrite Z.eqb_refl.
  - inversion Hnd as [|? ? Hk' Hnd']; subst.
    destruct (Z.eqb_spec k' k) as [->|Hne]; [|auto].
    exfalso. apply Hk'. change k with (fst (k, v)). now apply in_map.
Qed.

Lemma NoDup_ids_upto n : NoDup (ids_upto n).
Proof.
  unfold ids_upto. apply NoDup_map_NoDup_ForallPairs; [|apply seq_NoDup].
  intros a b _ _. apply Nat2Z.inj.
Qed.

Lemma In_firstn {A : Type} (n : nat) (l : list A) (x : A) : In x (firstn n l) -> In x l.
Proof. intros H. rewrite <- (firstn_skipn n l). apply in_or_app. now left. Qed.

Lemma In_skipn {A : Type} (n : nat) (l : list A) (x : A) : In x (skipn n l) -> In x l.
Proof. intros H. rewrite <- (firstn_skipn n l). apply in_or_app. now right. Qed.

Lemma items_length_handle s r :
  inv s ->
  List.length (items_map (handle s r)) =
  (List.length (items_map s) + if is_POST_item r then 1 else 0)%nat.
Proof.
  intros [Hwf _].
  destruct r as [|body|?|?|? ? ? ? ? ?|cid iid|? ? ? ? ?|id body|id body|id];
    simpl; try lia.
  - rewrite dict_set_new by now apply items_wf_fresh. rewrite length_app. reflexivity.
  - unfold add_item_to_cart.
    destruct (assert_cart_exists s cid); simpl; [|lia].
    destruct (assert_item_exists s iid); simpl; [|lia].
    destruct (dict_item cid (cart_map s)); simpl; lia.
  - unfold put_item, assert_item_exists.
    destruct (dict_mem id (items_map s)) eqn:Hm; simpl; [|lia].
    rewrite dict_set_length_old by assumption. lia.
  - unfold patch_item, assert_item_exists, dict_item.
    destruct (dict_mem id (items_map s)) eqn:Hm; simpl; [|lia].
    destruct (dict_get id (items_map s)) as [it|]; simpl; [|lia].
    destruct (Item.deleted it); simpl; [lia|].
    rewrite dict_set_length_old by assumption. lia.
  - unfold delete_item, assert_item_exists, dict_item.
    destruct (dict_mem id (items_map s)) eqn:Hm; simpl; [|lia].
    destruct (dict_get id (items_map s)) as [it|]; simpl; [|lia].
    rewrite dict_set_length_old by assumption. lia.
Qed.

Lemma items_length_run rs : forall s,
  inv s ->
  List.length (items_map (run s rs)) = (List.length (items_map s) + count_POST_item rs)%nat.
Proof.
  unfold count_POST_item.
  induction rs as [|r rs IH]; intros s Hs; simpl; [lia|].
  fold (run (handle s r) rs). rewrite IH by now apply inv_handle.
  rewrite items_length_handle by assumption.
  destruct (is_POST_item r); simpl; lia.
Qed.

(** X9. Item ids count the POST /item requests.  After any run of requests
    from the empty store the catalogue holds exactly the ids [1..k], in
    that order, where [k] is the number of POST /item requests in the
    run; no other request, DELETE included, changes the count, and the
    next POST /item answers id [k + 1]. *)
Theorem item_ids_count_the_posts (rs : list request) (body : CreateItemRequest.t) :
  let s := run empty_store rs in
  dict_keys (items_map s) = ids_upto (count_POST_item rs) /\
  Item.id (snd (create_item s body)) = Z.of_nat (count_POST_item rs) + 1.
Proof.
  simpl.
  pose proof (inv_run rs empty_store inv_empty) as [[Hk _] _].
  pose proof (items_length_run rs empty_store inv_empty) as Hlen. simpl in Hlen.
  split.
  - now rewrite Hk, Hlen.
  - unfold dict_len. now rewrite Hlen.
Qed.

Lemma carts_wf_grow s m :
  carts_wf s -> (List.length (items_map s) <= List.length m)%nat ->
  carts_wf (set_items_map s m).
Proof.
  intros [Hc Hnd] Hlen. split; [|exact Hnd]. simpl.
  revert Hc. apply Forall_impl. intros kc. unfold dict_len. lia.
Qed.

Lemma carts_wf_handle s r : carts_wf s -> carts_wf (handle s r).
Proof.
  intros Hwf.
  destruct r as [|body|?|?|? ? ? ? ? ?|cid iid|? ? ? ? ?|id body|id body|id];
    simpl; try assumption.
  - destruct Hwf as [Hc Hnd]. split; simpl.
    + apply Forall_dict_set; [assumption|]. simpl. unfold dict_len. lia.
    + now apply NoDup_keys_set.
  - apply carts_wf_grow; [assumption | apply dict_set_length_ge].
  - unfold add_item_to_cart, assert_cart_exists, assert_item_exists, dict_item.
    destruct (dict_mem cid (cart_map s)); simpl; [|assumption].
    destruct (dict_mem iid (items_map s)); simpl; [|assumption].
    destruct (dict_get cid (cart_map s)) as [cart|] eqn:Hget; simpl; [|assumption].
    destruct Hwf as [Hc Hnd]. split; simpl.
    + apply Forall_dict_set; [assumption|]. simpl.
      apply dict_get_In in Hget. rewrite Forall_forall in Hc. exact (Hc _ Hget).
    + now apply NoDup_keys_set.
  - unfold put_item. destruct (assert_item_exists s id); simpl; [|assumption].
    apply carts_wf_grow; [assumption | apply dict_set_length_ge].
  - unfold patch_item. destruct (assert_item_exists s id); simpl; [|assumption].
    destruct (dict_item id (items_map s)) as [it|]; simpl; [|assumption].
    destruct (Item.deleted it); simpl; [assumption|].
    apply carts_wf_grow; [assumption | apply dict_set_length_ge].
  - unfold delete_item. destruct (assert_item_exists s id); simpl; [|assumption].
    destruct (dict_item id (items_map s)) as [it|]; simpl; [|assumption].
    apply carts_wf_grow; [assumption | apply dict_set_length_ge].
Qed.

Lemma carts_wf_run rs : forall s, carts_wf s -> carts_wf (run s rs).
Proof.
  induction rs as [|r rs IH]; intros s Hs; simpl; [assumption|].
  apply IH. now apply carts_wf_handle.
Qed.

Lemma reachable_carts_wf s : reachable s -> carts_wf s.
Proof.
  intros [rs ->]. apply carts_wf_run. split; constructor.
Qed.

(** X10. The cart store of a reachable store: every cart sits under its own
    id; cart ids lie between 1 and [len(items_map) + 1]; and since the id
    of a new cart is taken from the item catalogue, there are never more
    carts than items plus one. *)
Theorem carts_bounded_by_items (s : store) :
  reachable s ->
  (forall id cart, dict_get id (cart_map s) = Some cart ->
                   Cart.id cart = id /\ 1 <= id <= dict_len (items_map s) + 1) /\
  (List.length (cart_map s) <= List.length (items_map s) + 1)%nat.
Proof.
  intros Hs. destruct (reachable_carts_wf s Hs) as [Hc Hnd].
  rewrite Forall_forall in Hc. split.
  - intros id cart Hget. apply dict_get_In in Hget. exact (Hc _ Hget).
  - rewrite <- (length_map fst (cart_map s)).
    replace (List.length (items_map s) + 1)%nat
      with (List.length (ids_upto (List.length (items_map s) + 1)))
      by (unfold ids_upto; now rewrite length_map, length_seq).
    apply NoDup_incl_length; [exact Hnd|].
    intros k Hk. apply in_map_iff in Hk as ([k' c] & <- & Hin).
    apply In_ids_upto. specialize (Hc _ Hin). simpl in *. unfold dict_len in Hc. lia.
Qed.

Lemma carts_bounded_by_items_witness :
  reachable (run empty_store (scenario_run ++ [POST_cart; POST_cart])) /\
  (List.length (cart_map (run empty_store (scenario_run ++ [POST_cart; POST_cart]))) <=
   List.length (items_map (run empty_store (scenario_run ++ [POST_cart; POST_cart]))) + 1)%nat.
Proof.
  assert (H : reachable (run empty_store (scenario_run ++ [POST_cart; POST_cart])))
    by (eexists; reflexivity).
  split; [exact H|].
  exact (proj2 (carts_bounded_by_items _ H)).
Defined.

(** X11. Answers carry the id asked for.  In a reachable store the view
    GET /cart/{id} answers has that id, the item GET /item/{id} answers
    has that id, and every item on a page of GET /item is the item the
    catalogue holds under the item's own id. *)
Theorem answers_carry_the_id (s : store) :
  reachable s ->
  (forall id v, get_cart s id = Ok v -> CartResponse.id v = id) /\
  (forall id item, get_item s id = Ok item -> Item.id item = id) /\
  (forall offset limit min_price max_price show_deleted page item,
      get_items s offset limit min_price max_price show_deleted = Ok page ->
      In item page ->
      dict_get (Item.id item) (items_map s) = Some item).
Proof.
  intros Hs. destruct (reachable_inv s Hs) as [Hwf _].
  destruct (reachable_carts_wf s Hs) as [Hc _]. rewrite Forall_forall in Hc.
  split; [|split].
  - intros id v H. destruct (dict_get id (cart_map s)) as [cart|] eqn:E.
    + rewrite (get_cart_stored _ _ _ E) in H.
      apply build_cart_response_Ok in H as (-> & _). apply dict_get_In in E.
      exact (proj1 (Hc _ E)).
    + rewrite (get_cart_unknown _ _ E) in H. discriminate.
  - intros id item H. destruct (dict_get id (items_map s)) as [it|] eqn:E.
    + rewrite (get_item_stored _ _ _ E) in H.
      destruct (Item.deleted it); [discriminate|]. injection H as <-.
      exact (items_wf_id _ _ _ Hwf E).
    + rewrite (get_item_unknown _ _ E) in H. discriminate.
  - intros offset limit min_price max_price show_deleted page item H Hin.
    unfold get_items in H.
    apply bind_Ok in H as (o & _ & H). apply bind_Ok in H as (l & _ & H).
    apply bind_Ok in H as (lo & _ & H). apply bind_Ok in H as (hi & _ & H).
    apply bind_Ok in H as (sd & _ & H). injection H as <-.
    unfold apply_offset_limit, slice in Hin.
    apply In_firstn, In_skipn, filter_In in Hin as [Hin _].
    unfold dict_values in Hin. apply in_map_iff in Hin as ([k it] & <- & Hin). simpl.
    destruct Hwf as [Hk Hid]. rewrite Forall_forall in Hid.
    pose proof (Hid _ Hin) as Hit. simpl in Hit. rewrite Hit.
    apply NoDup_keys_get; [|assumption].
    rewrite Hk. apply NoDup_ids_upto.
Qed.

Lemma answers_carry_the_id_witness :
  reachable (run empty_store scenario_run) /\
  exists v, get_cart (run empty_store scenario_run) 3 = Ok v /\ CartResponse.id v = 3.
Proof.
  assert (H : reachable (run empty_store scenario_run)) by (eexists; reflexivity).
  split; [exact H|].
  eexists. split; [reflexivity|].
  exact (proj1 (answers_carry_the_id _ H) 3 _ eq_refl).
Defined.

(** ** Quantities and prices of cart views *)

Lemma isum_from (l : list Z) (a : Z) : fold_left Z.add l a = a + isum l.
Proof.
  unfold isum. revert a. induction l as [|x l IH]; intros a; simpl; [lia|].
  rewrite (IH (a + x)), (IH x). lia.
Qed.

Lemma isum_cons (x : Z) (l : list Z) : isum (x :: l) = x + isum l.
Proof. unfold isum at 1. simpl. apply isum_from. Qed.

Lemma isum_remove (f : Z -> Z) (a : Z) (l : list Z) :
  NoDup l ->
  isum (map f l) =
  (if in_dec Z.eq_dec a l then f a else 0) + isum (map f (remove Z.eq_dec a l)).
Proof.
  induction 1 as [|x l Hx Hnd IH]; simpl; [reflexivity|].
  rewrite isum_cons, IH.
  destruct (Z.eq_dec x a) as [->|Hne].
  - destruct (Z.eq_dec a a); [|congruence].
    destruct (in_dec Z.eq_dec a l); [contradiction | lia].
  - destruct (Z.eq_dec a x); [congruence|]. simpl. rewrite isum_cons.
    destruct (in_dec Z.eq_dec a l); lia.
Qed.

Lemma count_of_cons a xs x :
  count_of (a :: xs) x = (if Z.eq_dec a x then 1 else 0) + count_of xs x.
Proof. unfold count_of. simpl. destruct (Z.eq_dec a x); lia. Qed.

(** The occurrence counts of the distinct elements add up to the length. *)
Lemma isum_counts xs :
  isum (map (count_of xs) (distinct xs)) = Z.of_nat (List.length xs).
Proof.
  induction xs as [|a xs IH]; [reflexivity|].
  change (distinct (a :: xs)) with (a :: remove Z.eq_dec a (distinct xs)).
  rewrite map_cons, isum_cons, count_of_cons.
  destruct (Z.eq_dec a a); [|congruence].
  rewrite (map_ext_in (count_of (a :: xs)) (count_of xs)).
  2:{ intros x Hx. apply in_remove in Hx as [_ Hx]. rewrite count_of_cons.
      destruct (Z.eq_dec a x); [congruence | lia]. }
  rewrite (isum_remove (count_of xs) a (distinct xs) (NoDup_distinct xs)) in IH.
  destruct (in_dec Z.eq_dec a (distinct xs)) as [Hin|Hnin].
  - simpl List.length. lia.
  - assert (Hz : count_of xs a = 0).
    { unfold count_of. rewrite In_distinct in Hnin.
      apply (count_occ_not_In Z.eq_dec) in Hnin. now rewrite Hnin. }
    simpl List.length. lia.
Qed.

Lemma Forall2_In_left {A B : Type} (R : A -> B -> Prop) l l' x :
  Forall2 R l l' -> In x l -> exists y, In y l' /\ R x y.
Proof.
  induction 1 as [|a b l l' Hab _ IH]; intros Hin; [destruct Hin|].
  destruct Hin as [<-|Hin].
  - exists b. split; [now left | assumption].
  - destruct (IH Hin) as (y & Hy & Hxy). exists y. split; [now right | assumption].
Qed.

Lemma Forall2_In_right {A B : Type} (R : A -> B -> Prop) l l' y :
  Forall2 R l l' -> In y l' -> exists x, In x l /\ R x y.
Proof.
  induction 1 as [|a b l l' Hab _ IH]; intros Hin; [destruct Hin|].
  destruct Hin as [<-|Hin].
  - exists a. split; [now left | assumption].
  - destruct (IH Hin) as (x & Hx & Hxy). exists x. split; [now right | assumption].
Qed.

(** A view is built only of carts whose ids are all stored. *)
Lemma build_cart_response_refs s cart v :
  build_cart_response s cart = Ok v -> cart_refs_ok (items_map s) cart.
Proof.
  intros H. apply build_cart_response_Ok in H as (_ & Hlines & _).
  apply Forall_forall. intros id Hid. apply (proj2 (In_distinct _ _)) in Hid.
  destruct (Forall2_In_left _ _ _ _ Hlines Hid) as (line & _ & item & Hget & _).
  exact (dict_mem_get _ _ _ Hget).
Qed.

Lemma build_cart_response_quantity s cart v :
  build_cart_response s cart = Ok v ->
  total_quantity v = Z.of_nat (List.length (Cart.item_ids cart)).
Proof.
  intros H. apply build_cart_response_Ok in H as (_ & Hlines & _).
  unfold total_quantity. rewrite <- isum_counts. f_equal.
  induction Hlines as [|id line ids lines (item & _ & ->) _ IH]; simpl; [reflexivity|].
  now rewrite IH.
Qed.

(** X12. The total quantity of a cart view, which the quantity filters of
    GET /cart compare, is the number of ids the cart holds, duplicates
    counted; each successful add raises it by one. *)
Theorem cart_total_quantity (s : store) (id : Z) (v : CartResponse.t) :
  get_cart s id = Ok v ->
  exists cart,
    dict_get id (cart_map s) = Some cart /\
    total_quantity v = Z.of_nat (List.length (Cart.item_ids cart)) /\
    forall item_id s',
      add_item_to_cart s id item_id = Ok s' ->
      exists v', get_cart s' id = Ok v' /\ total_quantity v' = total_quantity v + 1.
Proof.
  intros H. destruct (dict_get id (cart_map s)) as [cart|] eqn:E.
  2:{ rewrite (get_cart_unknown _ _ E) in H. discriminate. }
  rewrite (get_cart_stored _ _ _ E) in H.
  exists cart. split; [reflexivity|].
  pose proof (build_cart_response_quantity _ _ _ H) as Hq. split; [assumption|].
  intros item_id s' Hadd. unfold add_item_to_cart in Hadd.
  apply bind_Ok in Hadd as (_ & _ & Hadd). apply bind_Ok in Hadd as ([] & Hitem & Hadd).
  apply bind_Ok in Hadd as (cart0 & Hcart0 & Hadd).
  unfold dict_item in Hcart0. rewrite E in Hcart0. injection Hcart0 as <-.
  injection Hadd as <-.
  set (cart' := {| Cart.id := Cart.id cart; Cart.item_ids := Cart.item_ids cart ++ [item_id] |}).
  set (s' := set_cart_map s (dict_set id cart' (cart_map s))).
  destruct (build_cart_response_total s' cart') as [v' Hv'].
  { unfold cart_refs_ok. simpl. apply Forall_app. split.
    - exact (build_cart_response_refs _ _ _ H).
    - repeat constructor. now apply assert_item_exists_Ok. }
  exists v'. split.
  - rewrite (get_cart_stored s' id cart') by (simpl; apply dict_get_set_same). exact Hv'.
  - rewrite (build_cart_response_quantity _ _ _ Hv'), Hq. simpl.
    rewrite length_app. simpl. lia.
Qed.

Lemma cart_total_quantity_witness :
  get_cart deleted_line_store 3 =
    Ok {| CartResponse.id := 3;
          CartResponse.items := [CartItem.mk 1 "apple" 2 true; CartItem.mk 2 "banana" 1 false];
          CartResponse.price := 20 |} /\
  exists cart,
    dict_get 3 (cart_map deleted_line_store) = Some cart /\
    3 = Z.of_nat (List.length (Cart.item_ids cart)).
Proof.
  split; [reflexivity|].
  destruct (cart_total_quantity deleted_line_store 3 _ eq_refl) as (cart & H1 & H2 & _).
  exists cart. split; assumption.
Defined.

(** X13. A cart whose items are all deleted, an empty cart included, is
    viewed with every line unavailable and the price 0. *)
Theorem cart_of_deleted_items_is_free (s : store) (id : Z) (cart : Cart.t)
    (v : CartResponse.t) :
  get_cart s id = Ok v ->
  dict_get id (cart_map s) = Some cart ->
  (forall item_id item,
      In item_id (Cart.item_ids cart) ->
      dict_get item_id (items_map s) = Some item ->
      Item.deleted item = true) ->
  CartResponse.price v = PrimFloat.zero /\
  Forall (fun line => CartItem.available line = false) (CartResponse.items v) /\
  map CartItem.id (CartResponse.items v) = distinct (Cart.item_ids cart).
Proof.
  intros H E Hdel. rewrite (get_cart_stored _ _ _ E) in H.
  apply build_cart_response_Ok in H as (_ & Hlines & totals & Htotals & Hprice).
  assert (Hun : Forall (fun line => CartItem.available line = false) (CartResponse.items v)).
  { apply Forall_forall. intros line Hline.
    destruct (Forall2_In_right _ _ _ _ Hlines Hline) as (i & Hi & item & Hget & ->).
    apply (proj1 (In_distinct _ _)) in Hi. simpl. now rewrite (Hdel _ _ Hi Hget). }
  split; [|split; [exact Hun|]].
  - assert (Hnone : filter CartItem.available (CartResponse.items v) = []).
    { clear -Hun. induction Hun as [|line lines Hl _ IH]; simpl; [reflexivity|].
      now rewrite Hl. }
    rewrite Hnone in Htotals. inversion Htotals; subst. exact Hprice.
  - clear -Hlines. induction Hlines as [|i line ids lines (item & _ & ->) _ IH];
      simpl; [reflexivity|]. now rewrite IH.
Qed.

Lemma cart_of_deleted_items_is_free_witness :
  get_cart (handle (handle deleted_line_store (DELETE_item 1)) POST_cart) 3 =
    Ok {| CartResponse.id := 3; CartResponse.items := []; CartResponse.price := 0 |} /\
  exists v,
    get_cart (handle deleted_line_store (DELETE_item 1)) 3 = Ok v /\
    CartResponse.price v = PrimFloat.zero.
Proof.
  split; [reflexivity|].
  eexists. split; [reflexivity|].
  refine (proj1 (cart_of_deleted_items_is_free
                   (handle deleted_line_store (DELETE_item 1)) 3 (Cart.mk 3 [1; 1; 2]) _
                   eq_refl eq_refl _)).
  intros item_id item [<-|[<-|[<-|[]]]] [= <-]; reflexivity.
Defined.

(** ** Listing carts *)

Lemma get_carts_Ok s offset limit min_price max_price min_quantity max_quantity page :
  get_carts s offset limit min_price max_price min_quantity max_quantity = Ok page ->
  carts_query_ok offset limit min_price max_price min_quantity max_quantity = true /\
  exists views,
    mapM (build_cart_response s) (dict_values (cart_map s)) = Ok views /\
    page = apply_offset_limit
             (filter (carts_filter min_price max_price min_quantity max_quantity) views)
             (or_default 0 offset) (or_default 10 limit).
Proof.
  unfold get_carts, carts_query_ok. rewrite !Query_none_or, !QueryNone_none_or.
  destruct (none_or ge0 offset); [|discriminate].
  destruct (none_or gt0 limit); [|discriminate].
  destruct (none_or fge0 min_price); [|discriminate].
  destruct (none_or fge0 max_price); [|discriminate].
  destruct (none_or ge0 min_quantity); [|discriminate].
  destruct (none_or ge0 max_quantity); [|discriminate].
  cbv [bind].
  destruct (mapM (build_cart_response s) (dict_values (cart_map s))) as [views|]; [|discriminate].
  intros [= <-]. split; [reflexivity|]. exists views. split; reflexivity.
Qed.

Lemma carts_filter_bounds min_price max_price min_quantity max_quantity v :
  carts_filter min_price max_price min_quantity max_quantity v = true ->
  view_in_bounds min_price max_price min_quantity max_quantity v.
Proof.
  unfold carts_filter, view_in_bounds. intros H.
  apply andb_true_iff in H as [H H4]. apply andb_true_iff in H as [H H3].
  apply andb_true_iff in H as [H1 H2].
  repeat split; intros b ->; simpl in *; try assumption.
  - now apply Z.leb_le.
  - now apply Z.leb_le.
Qed.

(** X14. GET /cart.  A page that is answered is cut out of the views of the
    stored carts, taken in stored order and kept when price and total
    quantity lie within the bounds given, both ends included: the page
    skips [offset] of them and takes at most [limit].  So every view on
    the page lies within the bounds, and the page is no longer than
    [limit]. *)
Theorem get_carts_spec (s : store) (offset limit : option Z)
    (min_price max_price : option float) (min_quantity max_quantity : option Z)
    (page : list CartResponse.t) :
  get_carts s offset limit min_price max_price min_quantity max_quantity = Ok page ->
  exists views,
    Forall2 (fun cart v => build_cart_response s cart = Ok v)
            (dict_values (cart_map s)) views /\
    page = firstn (Z.to_nat (or_default 10 limit))
             (skipn (Z.to_nat (or_default 0 offset))
                (filter (carts_filter min_price max_price min_quantity max_quantity) views)) /\
    Forall (view_in_bounds min_price max_price min_quantity max_quantity) page /\
    Z.of_nat (List.length page) <= or_default 10 limit.
Proof.
  intros H. apply get_carts_Ok in H as (Hq & views & Hviews & ->).
  unfold carts_query_ok in Hq.
  do 4 (apply andb_true_iff in Hq as [Hq _]). apply andb_true_iff in Hq as [Ho Hl].
  assert (Ho' : 0 <= or_default 0 offset).
  { destruct offset as [v|]; simpl in *; [apply Z.leb_le in Ho|]; lia. }
  assert (Hl' : 0 < or_default 10 limit).
  { destruct limit as [v|]; simpl in *; [apply Z.ltb_lt in Hl|]; lia. }
  rewrite apply_offset_limit_spec by lia.
  exists views. split; [now apply mapM_Ok_Forall2|]. split; [reflexivity|]. split.
  - apply Forall_forall. intros v Hv.
    apply In_firstn, In_skipn, filter_In in Hv as [_ Hv].
    now apply carts_filter_bounds.
  - match goal with |- context [firstn ?n ?l] => pose proof (firstn_le_length n l) end. lia.
Qed.

Lemma get_carts_spec_witness :
  get_carts deleted_line_store None None (Some 20%float) (Some 20%float) (Some 3) None =
    Ok [{| CartResponse.id := 3;
           CartResponse.items := [CartItem.mk 1 "apple" 2 true; CartItem.mk 2 "banana" 1 false];
           CartResponse.price := 20 |}] /\
  Forall (view_in_bounds (Some 20%float) (Some 20%float) (Some 3) None)
    [{| CartResponse.id := 3;
        CartResponse.items := [CartItem.mk 1 "apple" 2 true; CartItem.mk 2 "banana" 1 false];
        CartResponse.price := 20 |}].
Proof.
  split; [reflexivity|].
  destruct (get_carts_spec deleted_line_store None None (Some 20%float) (Some 20%float)
              (Some 3) None _ eq_refl) as (views & _ & _ & H & _).
  exact H.
Defined.

(** X15. The list and the single fetch agree.  In a reachable store every view
    on a page of GET /cart is the view GET /cart/{id} answers for the id
    the view carries. *)
Theorem get_carts_agrees_with_get_cart (s : store) (offset limit : option Z)
    (min_price max_price : option float) (min_quantity max_quantity : option Z)
    (page : list CartResponse.t) :
  reachable s ->
  get_carts s offset limit min_price max_price min_quantity max_quantity = Ok page ->
  Forall (fun v => get_cart s (CartResponse.id v) = Ok v) page.
Proof.
  intros Hs H. destruct (reachable_carts_wf s Hs) as [Hc Hnd].
  rewrite Forall_forall in Hc.
  apply get_carts_Ok in H as (_ & views & Hviews & ->).
  apply mapM_Ok_Forall2 in Hviews.
  apply Forall_forall. intros v Hv. unfold apply_offset_limit, slice in Hv.
  apply In_firstn, In_skipn, filter_In in Hv as [Hv _].
  destruct (Forall2_In_right _ _ _ _ Hviews Hv) as (cart & Hcart & Hbuild).
  unfold dict_values in Hcart. apply in_map_iff in Hcart as ([k c] & <- & Hin).
  simpl in Hbuild.
  pose proof (build_cart_response_Ok _ _ _ Hbuild) as (Hid & _).
  destruct (Hc _ Hin) as [Hk _]. simpl in Hk.
  rewrite Hid, Hk.
  now rewrite (get_cart_stored s k c) by (now apply NoDup_keys_get).
Qed.

Lemma get_carts_agrees_with_get_cart_witness :
  reachable (run empty_store scenario_run) /\
  Forall (fun v => get_cart (run empty_store scenario_run) (CartResponse.id v) = Ok v)
    [{| CartResponse.id := 3;
        CartResponse.items := [CartItem.mk 1 "apple" 2 true; CartItem.mk 2 "banana" 1 true];
        CartResponse.price := 25 |}].
Proof.
  assert (H : reachable (run empty_store scenario_run)) by (eexists; reflexivity).
  split; [exact H|].
  exact (get_carts_agrees_with_get_cart (run empty_store scenario_run)
           None None None None None None _ H eq_refl).
Defined.

(** ** A DELETE seen through the listings and the views *)

Lemma slice_map {A B : Type} (f : A -> B) (l : list A) (start stop : Z) :
  map f (slice l start stop) = slice (map f l) start stop.
Proof. unfold slice. now rewrite length_map, skipn_map, firstn_map. Qed.

Lemma apply_offset_limit_map {A B : Type} (f : A -> B) (data : list A) (offset limit : Z) :
  map f (apply_offset_limit data offset limit) = apply_offset_limit (map f data) offset limit.
Proof. unfold apply_offset_limit. now rewrite slice_map, length_map. Qed.

(** A write that changes neither what a filter tests nor what a
    projection reads does not show in the filtered, projected values. *)
Lemma filter_values_set {V B : Type} (p : V -> bool) (f : V -> B) k v v' (d : dict V) :
  dict_get k d = Some v -> p v' = p v -> f v' = f v ->
  map f (filter p (dict_values (dict_set k v' d))) = map f (filter p (dict_values d)).
Proof.
  intros Hget Hp Hf. induction d as [|[k0 v0] d IH]; simpl in *; [discriminate|].
  destruct (k0 =? k); simpl.
  - injection Hget as ->. rewrite Hp. destruct (p v); simpl; now rewrite ?Hf.
  - destruct (p v0); simpl; now rewrite IH.
Qed.

Lemma get_items_Ok s offset limit min_price max_price show_deleted page :
  get_items s offset limit min_price max_price show_deleted = Ok page ->
  items_query_ok offset limit min_price max_price = true /\
  page = apply_offset_limit
           (filter (items_filter min_price max_price (or_default true show_deleted))
                   (dict_values (items_map s)))
           (or_default 0 offset) (or_default 10 limit).
Proof.
  unfold get_items, items_query_ok. rewrite !Query_none_or, !QueryNone_none_or.
  destruct (none_or ge0 offset); [|discriminate].
  destruct (none_or gt0 limit); [|discriminate].
  destruct (none_or fgt0 min_price); [|discriminate].
  destruct (none_or fgt0 max_price); [|discriminate].
  assert (Hsd : none_or unconstrained show_deleted = true) by (now destruct show_deleted).
  rewrite Hsd. cbv [bind]. intros [= <-]. split; reflexivity.
Qed.

Lemma get_items_accepted s offset limit min_price max_price show_deleted :
  items_query_ok offset limit min_price max_price = true ->
  exists page, get_items s offset limit min_price max_price show_deleted = Ok page.
Proof.
  unfold get_items, items_query_ok. rewrite !Query_none_or, !QueryNone_none_or.
  intros Hq. apply andb_true_iff in Hq as [Hq ->]. apply andb_true_iff in Hq as [Hq ->].
  apply andb_true_iff in Hq as [-> ->].
  assert (Hsd : none_or unconstrained show_deleted = true) by (now destruct show_deleted).
  rewrite Hsd. simpl. eauto.
Qed.


(** X17. A DELETE in the item listing.  With [show_deleted] left at its
    default or set to true, the pages GET /item answers after a
    successful DELETE list the same ids, names and prices at the same
    places as before: the deleted item stays listed. *)
Theorem delete_item_stays_listed (s s' : store) (id : Z) (offset limit : option Z)
    (min_price max_price : option float) (show_deleted : option bool)
    (page : list Item.t) :
  delete_item s id = Ok s' ->
  or_default true show_deleted = true ->
  get_items s offset limit min_price max_price show_deleted = Ok page ->
  exists page',
    get_items s' offset limit min_price max_price show_deleted = Ok page' /\
    map (fun item => (Item.id item, Item.name item, Item.price item)) page' =
    map (fun item => (Item.id item, Item.name item, Item.price item)) page.
Proof.
  intros Hdel Hsd Hget.
  apply delete_item_Ok in Hdel as (item & Hitem & ->).
  apply get_items_Ok in Hget as (Hq & ->).
  destruct (get_items_accepted
              (set_items_map s (dict_set id (mark_deleted item) (items_map s)))
              offset limit min_price max_price show_deleted Hq) as [page' Hpage'].
  exists page'. split; [assumption|].
  apply get_items_Ok in Hpage' as (_ & ->). rewrite !apply_offset_limit_map. f_equal.
  simpl. apply (filter_values_set _ _ id item); [assumption | | reflexivity].
  unfold items_filter. rewrite Hsd. reflexivity.
Qed.

Lemma delete_item_stays_listed_witness :
  delete_item three_items 1 = Ok (handle three_items (DELETE_item 1)) /\
  exists page',
    get_items (handle three_items (DELETE_item 1)) None (Some 2) None None None = Ok page' /\
    map (fun item => (Item.id item, Item.name item, Item.price item)) page' =
    [(1, "banana", 5%float); (2, "apple", 10%float)].
Proof.
  split; [reflexivity|].
  exact (delete_item_stays_listed three_items _ 1 None (Some 2) None None None _
           eq_refl eq_refl eq_refl).
Defined.

Lemma Forall2_same_left {A B : Type} (R R' : A -> B -> Prop) (g : B -> B) l a b :
  (forall i x y, R i x -> R' i y -> y = g x) ->
  Forall2 R l a -> Forall2 R' l b -> b = map g a.
Proof.
  intros Hg Ha. revert b. induction Ha as [|i x l a Hix _ IH]; intros b Hb;
    inversion Hb as [|? y ? b' Hiy Hb']; subst; simpl; [reflexivity|].
  f_equal; [exact (Hg _ _ _ Hix Hiy) | now apply IH].
Qed.

(** X18. A DELETE in a cart view.  After a successful DELETE of item [id], the
    view of any cart that could be viewed before has the same lines in
    the same order, with the same names and quantities; the lines of
    item [id] are now unavailable and every other line is as it was. *)
Theorem delete_item_in_cart_view (s s' : store) (id cart_id : Z) (v : CartResponse.t) :
  delete_item s id = Ok s' ->
  get_cart s cart_id = Ok v ->
  exists v',
    get_cart s' cart_id = Ok v' /\
    CartResponse.id v' = CartResponse.id v /\
    CartResponse.items v' =
      map (fun line =>
             if CartItem.id line =? id
             then {| CartItem.id := CartItem.id line; CartItem.name := CartItem.name line;
                     CartItem.quantity := CartItem.quantity line;
                     CartItem.available := false |}
             else line)
          (CartResponse.items v).
Proof.
  intros Hdel Hv. apply delete_item_Ok in Hdel as (item & Hitem & ->).
  set (s' := set_items_map s (dict_set id (mark_deleted item) (items_map s))).
  destruct (dict_get cart_id (cart_map s)) as [cart|] eqn:E.
  2:{ rewrite (get_cart_unknown _ _ E) in Hv. discriminate. }
  rewrite (get_cart_stored _ _ _ E) in Hv.
  destruct (build_cart_response_total s' cart) as [v' Hv'].
  { apply cart_refs_ok_set. exact (build_cart_response_refs _ _ _ Hv). }
  exists v'. split; [now rewrite (get_cart_stored s' cart_id cart) by exact E|].
  apply build_cart_response_Ok in Hv as (Hid & Hlines & _).
  apply build_cart_response_Ok in Hv' as (Hid' & Hlines' & _).
  split; [congruence|].
  revert Hlines Hlines'. apply Forall2_same_left.
  intros i x y (it & Hit & ->) (it' & Hit' & ->). simpl in Hit'. simpl.
  destruct (Z.eqb_spec i id) as [->|Hne].
  - rewrite dict_get_set_same in Hit'. injection Hit' as <-.
    rewrite Hitem in Hit. injection Hit as <-. reflexivity.
  - rewrite dict_get_set_other in Hit' by assumption. congruence.
Qed.

Lemma delete_item_in_cart_view_witness :
  delete_item (run empty_store scenario_run) 2 =
    Ok (handle (run empty_store scenario_run) (DELETE_item 2)) /\
  exists v',
    get_cart (handle (run empty_store scenario_run) (DELETE_item 2)) 3 = Ok v' /\
    CartResponse.items v' =
      [CartItem.mk 1 "apple" 2 true; CartItem.mk 2 "banana" 1 false].
Proof.
  split; [reflexivity|].
  destruct (delete_item_in_cart_view (run empty_store scenario_run) _ 2 3 _ eq_refl eq_refl)
    as (v' & Hget & _ & Hitems).
  exists v'. split; [exact Hget | exact Hitems].
Defined.

(** ** What a request can do to a stored cart *)

Lemma cart_eta (cart : Cart.t) :
  {| Cart.id := Cart.id cart; Cart.item_ids := Cart.item_ids cart ++ [] |} = cart.
Proof. destruct cart. simpl. now rewrite app_nil_r. Qed.

(** X19. A stored cart is never removed and never loses an id, with one
    exception.  After any request the cart is still stored under its key
    with its [item_ids] as they were or with one id appended; the
    exception is POST /cart when the key is [len(items_map) + 1], which
    puts an empty cart in its place. *)
Theorem carts_only_grow (s : store) (r : request) (key : Z) (cart : Cart.t) :
  dict_get key (cart_map s) = Some cart ->
  (r = POST_cart /\ key = dict_len (items_map s) + 1 /\
   dict_get key (cart_map (handle s r)) = Some {| Cart.id := key; Cart.item_ids := [] |}) \/
  (exists more,
      dict_get key (cart_map (handle s r)) =
        Some {| Cart.id := Cart.id cart; Cart.item_ids := Cart.item_ids cart ++ more |} /\
      (List.length more <= 1)%nat).
Proof.
  intros H.
  assert (Hsame : exists more,
             dict_get key (cart_map s) =
               Some {| Cart.id := Cart.id cart; Cart.item_ids := Cart.item_ids cart ++ more |} /\
             (List.length more <= 1)%nat).
  { exists []. rewrite cart_eta. split; [assumption | simpl; lia]. }
  destruct r as [|body|?|?|? ? ? ? ? ?|cid iid|? ? ? ? ?|id body|id body|id];
    simpl; try (right; assumption).
  - destruct (Z.eq_dec key (dict_len (items_map s) + 1)) as [->|Hne].
    + left. repeat split. apply dict_get_set_same.
    + right. rewrite dict_get_set_other by assumption. exact Hsame.
  - right. unfold add_item_to_cart, assert_cart_exists, assert_item_exists, dict_item.
    destruct (dict_mem cid (cart_map s)); simpl; [|assumption].
    destruct (dict_mem iid (items_map s)); simpl; [|assumption].
    destruct (dict_get cid (cart_map s)) as [c|] eqn:Hc; simpl; [|assumption].
    destruct (Z.eq_dec key cid) as [->|Hne].
    + rewrite dict_get_set_same. rewrite Hc in H. injection H as ->.
      exists [iid]. split; [reflexivity | simpl; lia].
    + rewrite dict_get_set_other by assumption. exact Hsame.
  - right. unfold put_item. destruct (assert_item_exists s id); simpl; assumption.
  - right. unfold patch_item. destruct (assert_item_exists s id); simpl; [|assumption].
    destruct (dict_item id (items_map s)) as [it|]; simpl; [|assumption].
    destruct (Item.deleted it); simpl; assumption.
  - right. unfold delete_item. destruct (assert_item_exists s id); simpl; [|assumption].
    destruct (dict_item id (items_map s)) as [it|]; simpl; assumption.
Qed.

Lemma carts_only_grow_witness :
  dict_get 3 (cart_map deleted_line_store) = Some (Cart.mk 3 [1; 1; 2]) /\
  dict_get 3 (cart_map (handle deleted_line_store POST_cart)) = Some (Cart.mk 3 []).
Proof.
  split; [reflexivity|].
  destruct (carts_only_grow deleted_line_store POST_cart 3 (Cart.mk 3 [1; 1; 2]) eq_refl)
    as [(_ & _ & H)|(more & H & _)].
  - exact H.
  - discriminate H.
Defined.
